(** * Product-management server: a shallow embedding of [src/index.js]

    The Express handlers of [index.js] are embedded as functions in a small
    monad that threads the two MongoDB collections, records every awaited
    call to the document store and to the payment gateway, and lets an
    exception either be caught by the handler's [try]/[catch] or escape it.

    Numbers are JavaScript numbers: binary64 floats, with their rounding,
    their infinities, their two zeros and [NaN].  JSON values are the
    scalars, arrays and objects, plus [undefined] for a key that is not
    there.  A request body is a JSON object. *)

From Stdlib Require Import Ascii String ZArith Lia Bool List.
From Stdlib Require Import Floats.
From stdpp Require Import gmap strings list fin_maps.

Set Warnings "-inexact-float,-register-all".

Local Open Scope string_scope.
Local Open Scope list_scope.

(** ** JavaScript numbers *)

Definition number : Type := float.

Definition NaN : number := nan.
Definition zero : number := 0%float.
Definition hundred : number := 100%float.

(** The double nearest to an integer. *)
Definition num_of_Z (z : Z) : number :=
  SF2Prim (binary_normalize prec emax z 0 false).

(** [a - b] and [a * b], rounded as binary64 does. *)
Definition num_sub (a b : number) : number := (a - b)%float.
Definition num_mul (a b : number) : number := (a * b)%float.

(** [a < b], [a > b], [a <= b] and [a >= b]: false as soon as one side is
    [NaN]. *)
Definition num_ltb (a b : number) : bool := (a <? b)%float.
Definition num_gtb (a b : number) : bool := num_ltb b a.
Definition num_leb (a b : number) : bool := (a <=? b)%float.
Definition num_geb (a b : number) : bool := num_leb b a.

(** [a === b] on numbers: [NaN] is different from everything, and the two
    zeros are equal. *)
Definition num_strict_eq (a b : number) : bool := (a =? b)%float.

(** Two stored numbers are the same value, bit for bit: [NaN] is the same
    as [NaN], and [0] is not the same as [-0]. *)
Definition num_same (a b : number) : bool := PrimFloat.Leibniz.eqb a b.

(** Equality of numbers in a query filter: numeric, with [NaN] equal to
    [NaN]. *)
Definition num_equal (a b : number) : bool :=
  (a =? b)%float || (is_nan a && is_nan b).

(** ** JSON values *)

Inductive value : Type :=
| VUndefined
| VNull
| VBool (b : bool)
| VNum (n : number)
| VStr (s : string)
| VArr (items : list value)
| VObj (fields : list (string * value)).

(** Structural equality of values, with the equality of numbers left
    open. *)
Fixpoint value_eqb (num_eq : number -> number -> bool) (a b : value)
    {struct a} : bool :=
  match a, b with
  | VUndefined, VUndefined => true
  | VNull, VNull => true
  | VBool x, VBool y => Bool.eqb x y
  | VNum x, VNum y => num_eq x y
  | VStr x, VStr y => String.eqb x y
  | VArr xs, VArr ys =>
      (fix items_eqb (xs ys : list value) {struct xs} : bool :=
         match xs, ys with
         | [], [] => true
         | x :: xs', y :: ys' => value_eqb num_eq x y && items_eqb xs' ys'
         | _, _ => false
         end) xs ys
  | VObj xs, VObj ys =>
      (fix fields_eqb (xs ys : list (string * value)) {struct xs} : bool :=
         match xs, ys with
         | [], [] => true
         | (k, x) :: xs', (k', y) :: ys' =>
             String.eqb k k' && value_eqb num_eq x y && fields_eqb xs' ys'
         | _, _ => false
         end) xs ys
  | _, _ => false
  end.

(** The same stored value (used to tell whether an update changes a
    document), and equality in a query filter. *)
Definition value_same : value -> value -> bool := value_eqb num_same.
Definition value_equal : value -> value -> bool := value_eqb num_equal.

Definition scalar (v : value) : bool :=
  match v with
  | VArr _ | VObj _ => false
  | _ => true
  end.

(** Truthiness, as tested by [if (x)] and [!x]. *)
Definition truthy (v : value) : bool :=
  match v with
  | VUndefined | VNull => false
  | VBool b => b
  | VNum n => negb (num_strict_eq n zero || is_nan n)
  | VStr s => negb (String.eqb s "")
  | VArr _ | VObj _ => true
  end.

(** A JSON object, as [req.body] is after [express.json()]; reading a key
    that is not there gives [undefined]. *)
Definition field (o : gmap string value) (k : string) : value :=
  default VUndefined (o !! k).

(** The driver writes [undefined] as BSON null ([ignoreUndefined] is not set
    on the client of [index.js]). *)
Definition bson (v : value) : value :=
  match v with
  | VUndefined => VNull
  | _ => v
  end.

(** The object has an own property of that name. *)
Definition has_key (k : string) (fields : list (string * value)) : bool :=
  existsb (fun kv => String.eqb (fst kv) k) fields.

(** A filter value whose first key starts with [$] is a query operator
    document, not a value to compare with. *)
Definition is_operator (fields : list (string * value)) : bool :=
  match fields with
  | (String c _, _) :: _ => Ascii.eqb c "$"
  | _ => false
  end.

Definition operator_doc (v : value) : bool :=
  match v with
  | VObj fields => is_operator fields
  | _ => false
  end.

(** ** Object ids

    [new ObjectId(s)] on a string accepts 24 hexadecimal digits and throws
    otherwise (releases of the bson library before 5.0 also took any string
    of 12 bytes; the results below only ask whether the id parses). *)

Definition ObjectId : Type := N.

Definition hex_digit (c : ascii) : option N :=
  let n := N_of_ascii c in
  if ((48 <=? n) && (n <=? 57))%N then Some (n - 48)%N
  else if ((97 <=? n) && (n <=? 102))%N then Some (n - 87)%N
  else if ((65 <=? n) && (n <=? 70))%N then Some (n - 55)%N
  else None.

Fixpoint hex_value (acc : N) (s : string) : option N :=
  match s with
  | EmptyString => Some acc
  | String c rest =>
      match hex_digit c with
      | Some d => hex_value (16 * acc + d)%N rest
      | None => None
      end
  end.

Definition parse_ObjectId (s : string) : option ObjectId :=
  if (String.length s =? 24)%nat then hex_value 0%N s else None.

(** ** Data model *)

(** A product document without its [_id] (the collection is keyed by it).
    [status] is absent ([VUndefined]) until a purchase is confirmed. *)
Record Product : Type := mkProduct {
  name : value;
  description : value;
  price : number;
  imageURL : value;
  stock : number;
  status : value
}.

(** The object literal that [POST /products] and [PATCH /products/:id] build
    from the request body. *)
Record ProductFields : Type := mkFields {
  f_name : value;
  f_description : value;
  f_price : number;
  f_imageURL : value;
  f_stock : number
}.

(** The [_id] of a user document: the one the driver generates, or the one
    that the inserted body brought with it. *)
Inductive UserId : Type :=
| GeneratedId (id : ObjectId)
| GivenId (v : value).

(** A user document: its [_id] and the registration body as it was sent. *)
Record User : Type := mkUser {
  u_id : UserId;
  u_doc : gmap string value
}.

Record PaymentIntent : Type := mkIntent {
  pi_id : string;
  pi_status : string;
  client_secret : string
}.

(** The argument of [stripe.paymentIntents.create]. *)
Record IntentParams : Type := mkParams {
  amount : number;
  currency : string;
  payment_method_types : list string
}.

Record World : Type := mkWorld {
  userCollection : list User;
  productCollection : gmap ObjectId Product
}.

(** The [$set] documents that the handlers send. *)
Inductive Update : Type :=
| SetFields (u : ProductFields)
| SetStock (updatedStock : number) (st : value).

(** Awaited calls to the document store and to the payment gateway, in the
    order in which a handler makes them. *)
Inductive Event : Type :=
| UserFindOneId (id : ObjectId)
| UserFindOneEmail (email : value)
| UserInsertOne (doc : gmap string value)
| ProductInsertOne (u : ProductFields)
| ProductFind
| ProductFindOne (id : ObjectId)
| ProductUpdateOne (id : ObjectId) (upd : Update)
| ProductDeleteOne (id : ObjectId)
| StripeCreate (params : IntentParams)
| StripeRetrieve (paymentIntentId : value).

Definition is_gateway_call (e : Event) : bool :=
  match e with
  | StripeCreate _ | StripeRetrieve _ => true
  | _ => false
  end.

Definition is_store_write (e : Event) : bool :=
  match e with
  | UserInsertOne _ | ProductInsertOne _
  | ProductUpdateOne _ _ | ProductDeleteOne _ => true
  | _ => false
  end.

(** ** HTTP requests and responses *)

Record Request : Type := mkRequest {
  param : string;                  (* [req.params.id] or [req.params.email] *)
  authorization : option string;   (* [req.headers.authorization] *)
  body : gmap string value;        (* [req.body] *)
  now : N                          (* the clock when the request is served *)
}.

Inductive Body : Type :=
| BText (s : string)
| BMessage (message : string)
| BError (error : string)
| BAuth (st message token : string)
| BUser (u : option User)
| BProduct (p : option (ObjectId * Product))
| BProducts (l : list (ObjectId * Product))
| BFields (u : ProductFields)
| BClientSecret (clientSecret : string)
| BPayment (message : string) (product : option (ObjectId * Product)).

Record Response : Type := mkResponse {
  code : nat;
  payload : Body
}.

(** [res.send(x)] and [res.json(x)] answer with status 200;
    [res.status(c).json(x)] with [c]. *)
Definition send (b : Body) : Response := mkResponse 200 b.
Definition status_json (c : nat) (b : Body) : Response := mkResponse c b.

(** The user document that a response body carries, if it carries one. *)
Definition body_user (b : Body) : option User :=
  match b with
  | BUser u => u
  | _ => None
  end.

(** ** External collaborators

    What [index.js] imports and does not define: the token library, the
    payment gateway, the server's reading of query operators and of
    supplied ids, and the parts of the JavaScript built-ins that print a
    number or read one out of a string. *)
Record Env : Type := mkEnv {
  (* [jwt.sign({email}, secretKey, {expiresIn: "7d"})] at a given time *)
  jwt_sign : value -> N -> string;
  (* [jwt.verify(token, secretKey)?.email]; [None] when it throws *)
  jwt_verify : string -> N -> option value;
  (* [stripe.paymentIntents.create]; [None] when it throws *)
  stripe_create : IntentParams -> option PaymentIntent;
  (* [stripe.paymentIntents.retrieve]; [None] when it throws *)
  stripe_retrieve : value -> option PaymentIntent;
  (* [{email: {$op: ...}}]: which stored e-mails the operator document
     selects; [None] when the server refuses the query *)
  operator_filter : list (string * value) -> option (value -> bool);
  (* whether the server takes a supplied value, not an array, as an [_id] *)
  id_accepted : value -> bool;
  (* [String(n)] of a number *)
  number_to_string : number -> string;
  (* [Number(s)], [parseFloat(s)] and [parseInt(s)] on a string *)
  string_to_number : string -> number;
  parseFloat_string : string -> number;
  parseInt_string : string -> number;
  (* [parseInt(n)] on a number *)
  parseInt_number : number -> number
}.

(** ** Exceptions and the handler monad *)

Inductive Exception : Type :=
| BSONError          (* malformed id given to [new ObjectId] *)
| TypeError          (* a value that cannot be converted to a primitive *)
| JsonWebTokenError  (* thrown by [jwt.verify] *)
| StripeError        (* thrown by the gateway client *)
| MongoServerError.  (* a write or a query that the server refuses *)

Inductive Result (A : Type) : Type :=
| Ok (a : A)
| Throw (e : Exception).

Arguments Ok {A} a.
Arguments Throw {A} e.

Definition M (A : Type) : Type := World -> Result A * World * list Event.

Definition ret {A} (a : A) : M A := fun w => (Ok a, w, []).

Definition throw {A} (e : Exception) : M A := fun w => (Throw e, w, []).

Definition bind {A B} (m : M A) (k : A -> M B) : M B :=
  fun w =>
    match m w with
    | (Ok a, w1, t1) =>
        match k a w1 with
        | (r, w2, t2) => (r, w2, t1 ++ t2)
        end
    | (Throw e, w1, t1) => (Throw e, w1, t1)
    end.

(** [try { m } catch (err) { h }] *)
Definition try_catch {A} (m : M A) (h : Exception -> M A) : M A :=
  fun w =>
    match m w with
    | (Ok a, w1, t1) => (Ok a, w1, t1)
    | (Throw e, w1, t1) =>
        match h e w1 with
        | (r, w2, t2) => (r, w2, t1 ++ t2)
        end
    end.

Notation "'let*' x ':=' m 'in' k" := (bind m (fun x => k))
  (at level 10, x name, m at level 100, k at level 200).

(** A conversion of the language: its result, or a [TypeError]. *)
Definition convert {A} (o : option A) : M A :=
  match o with
  | Some a => ret a
  | None => throw TypeError
  end.

(** [new ObjectId(s)] *)
Definition new_ObjectId (s : string) : M ObjectId :=
  match parse_ObjectId s with
  | Some id => ret id
  | None => throw BSONError
  end.

(** ** The document store *)

Record UpdateResult : Type := mkUpdateResult {
  matchedCount : nat;
  modifiedCount : nat
}.

Definition same_doc (p p' : Product) : bool :=
  value_same (name p) (name p')
  && value_same (description p) (description p')
  && num_same (price p) (price p')
  && value_same (imageURL p) (imageURL p')
  && num_same (stock p) (stock p')
  && value_same (status p) (status p').

(** The document after a [$set]. *)
Definition apply_update (upd : Update) (p : Product) : Product :=
  match upd with
  | SetFields u =>
      {| name := bson (f_name u);
         description := bson (f_description u);
         price := f_price u;
         imageURL := bson (f_imageURL u);
         stock := f_stock u;
         status := status p |}
  | SetStock s st =>
      {| name := name p;
         description := description p;
         price := price p;
         imageURL := imageURL p;
         stock := s;
         status := bson st |}
  end.

Definition new_doc (u : ProductFields) : Product :=
  {| name := bson (f_name u);
     description := bson (f_description u);
     price := f_price u;
     imageURL := bson (f_imageURL u);
     stock := f_stock u;
     status := VUndefined |}.

(** An id that the collection does not use yet. *)
Definition fresh_id (used : list ObjectId) : ObjectId :=
  N.succ (foldr N.max 0%N used).

Definition generated_id (u : User) : list ObjectId :=
  match u_id u with
  | GeneratedId id => [id]
  | GivenId _ => []
  end.

Definition generated_ids (l : list User) : list ObjectId :=
  flat_map generated_id l.

Definition set_products (w : World) (m : gmap ObjectId Product) : World :=
  {| userCollection := userCollection w; productCollection := m |}.

Definition set_users (w : World) (l : list User) : World :=
  {| userCollection := l; productCollection := productCollection w |}.

Definition email_of (u : User) : value := field (u_doc u) "email".

(** [{ email: e }] with a value [e] to compare with selects the documents
    whose [email] equals [e] or is an array with an item equal to [e]; a
    null (or undefined) [e] also selects the documents without [email]. *)
Definition email_matches (e : value) (u : User) : bool :=
  value_equal (bson e) (bson (email_of u))
  || match email_of u with
     | VArr items => existsb (value_equal (bson e)) items
     | _ => false
     end.

(** The user that [findOne({ email: e })] gives; [None] when the server
    refuses the filter. *)
Definition find_by_email (env : Env) (e : value) (users : list User)
    : option (option User) :=
  match e with
  | VObj fields =>
      if is_operator fields then
        match operator_filter env fields with
        | Some selects => Some (List.find (fun u => selects (email_of u)) users)
        | None => None
        end
      else Some (List.find (email_matches e) users)
  | _ => Some (List.find (email_matches e) users)
  end.

Definition has_id (id : UserId) (u : User) : bool :=
  match id, u_id u with
  | GeneratedId a, GeneratedId b => N.eqb a b
  | GivenId a, GivenId b => value_equal a b
  | _, _ => false
  end.

Definition users_findOne_id (id : ObjectId) : M (option User) :=
  fun w =>
    (Ok (List.find (has_id (GeneratedId id)) (userCollection w)), w,
     [UserFindOneId id]).

Definition users_findOne_email (env : Env) (e : value) : M (option User) :=
  fun w =>
    match find_by_email env e (userCollection w) with
    | Some found => (Ok found, w, [UserFindOneEmail e])
    | None => (Throw MongoServerError, w, [UserFindOneEmail e])
    end.

(** [findOne({ email })] with the string of the URL. *)
Definition users_findOne_address (email : string) : M (option User) :=
  fun w =>
    (Ok (List.find (email_matches (VStr email)) (userCollection w)), w,
     [UserFindOneEmail (VStr email)]).

(** The [_id] under which [insertOne(doc)] stores the document: the one the
    document has, or a generated one; [None] when the server refuses the
    insert (an array as [_id], an [_id] it does not take, or one that a
    stored user already has). *)
Definition insert_id (env : Env) (doc : gmap string value) (users : list User)
    : option UserId :=
  match doc !! "_id" with
  | None => Some (GeneratedId (fresh_id (generated_ids users)))
  | Some v =>
      match v with
      | VArr _ => None
      | _ =>
          if id_accepted env v && negb (existsb (has_id (GivenId v)) users)
          then Some (GivenId v) else None
      end
  end.

Definition users_insertOne (env : Env) (doc : gmap string value) : M UserId :=
  fun w =>
    match insert_id env doc (userCollection w) with
    | Some id =>
        (Ok id, set_users w (userCollection w ++ [mkUser id doc]),
         [UserInsertOne doc])
    | None => (Throw MongoServerError, w, [UserInsertOne doc])
    end.

Definition products_findOne (id : ObjectId) : M (option (ObjectId * Product)) :=
  fun w =>
    (Ok (pair id <$> productCollection w !! id), w, [ProductFindOne id]).

Definition products_find : M (list (ObjectId * Product)) :=
  fun w => (Ok (map_to_list (productCollection w)), w, [ProductFind]).

Definition products_insertOne (u : ProductFields) : M ObjectId :=
  fun w =>
    let id := fresh_id (fst <$> map_to_list (productCollection w)) in
    (Ok id, set_products w (<[id := new_doc u]> (productCollection w)),
     [ProductInsertOne u]).

(** [updateOne({_id}, {$set})]: the matched document gets the fields of the
    [$set]; [modifiedCount] is 1 only when that changes the document. *)
Definition products_updateOne (id : ObjectId) (upd : Update) : M UpdateResult :=
  fun w =>
    match productCollection w !! id with
    | None => (Ok (mkUpdateResult 0 0), w, [ProductUpdateOne id upd])
    | Some p =>
        let p' := apply_update upd p in
        (Ok (mkUpdateResult 1 (if same_doc p p' then 0 else 1)),
         set_products w (<[id := p']> (productCollection w)),
         [ProductUpdateOne id upd])
    end.

(** [deleteOne({_id})] gives [deletedCount]. *)
Definition products_deleteOne (id : ObjectId) : M nat :=
  fun w =>
    match productCollection w !! id with
    | None => (Ok 0, w, [ProductDeleteOne id])
    | Some _ =>
        (Ok 1, set_products w (delete id (productCollection w)),
         [ProductDeleteOne id])
    end.

(** ** The payment gateway *)

Definition paymentIntents_create (env : Env) (params : IntentParams) : M PaymentIntent :=
  fun w =>
    match stripe_create env params with
    | Some intent => (Ok intent, w, [StripeCreate params])
    | None => (Throw StripeError, w, [StripeCreate params])
    end.

Definition paymentIntents_retrieve (env : Env) (paymentIntentId : value) : M PaymentIntent :=
  fun w =>
    match stripe_retrieve env paymentIntentId with
    | Some intent => (Ok intent, w, [StripeRetrieve paymentIntentId])
    | None => (Throw StripeError, w, [StripeRetrieve paymentIntentId])
    end.

(** ** JavaScript built-ins used by the handlers *)

(** [String(v)]; [None] when it throws a [TypeError].  An object of a JSON
    body prints as "[object Object]" unless it has an own [toString]
    property, which JSON cannot make callable: then neither [toString] nor
    [valueOf] gives a primitive.  An array prints its items separated by
    commas, [null] as the empty string. *)
Fixpoint ToString (env : Env) (v : value) {struct v} : option string :=
  match v with
  | VUndefined => Some "undefined"
  | VNull => Some "null"
  | VBool true => Some "true"
  | VBool false => Some "false"
  | VNum n => Some (number_to_string env n)
  | VStr s => Some s
  | VArr items =>
      (fix join (l : list value) {struct l} : option string :=
         match l with
         | [] => Some ""
         | x :: rest =>
             match
               match x with
               | VUndefined | VNull => Some ""
               | _ => ToString env x
               end
             with
             | None => None
             | Some s =>
                 match rest with
                 | [] => Some s
                 | _ :: _ =>
                     match join rest with
                     | Some t => Some (String.append s (String "," t))
                     | None => None
                     end
                 end
             end
         end) items
  | VObj fields =>
      if has_key "toString" fields then None else Some "[object Object]"
  end.

(** [ToNumber(v)], the coercion that [-], [*] and a numeric [<] apply; an
    array or an object is first turned into a string. *)
Definition ToNumber (env : Env) (v : value) : option number :=
  match v with
  | VUndefined => Some NaN
  | VNull => Some zero
  | VBool true => Some (num_of_Z 1)
  | VBool false => Some zero
  | VNum n => Some n
  | VStr s => Some (string_to_number env s)
  | VArr _ | VObj _ => string_to_number env <$> ToString env v
  end.

(** [parseFloat(v)]: of [undefined], [null] and the booleans it reads the
    words "undefined", "null", "true" and "false", which hold no number; a
    number is printed and read back, which only loses the sign of [-0]. *)
Definition parseFloat (env : Env) (v : value) : option number :=
  match v with
  | VUndefined | VNull | VBool _ => Some NaN
  | VNum n => Some (if num_strict_eq n zero then zero else n)
  | VStr s => Some (parseFloat_string env s)
  | VArr _ | VObj _ => parseFloat_string env <$> ToString env v
  end.

Definition parseInt (env : Env) (v : value) : option number :=
  match v with
  | VUndefined | VNull | VBool _ => Some NaN
  | VNum n => Some (parseInt_number env n)
  | VStr s => Some (parseInt_string env s)
  | VArr _ | VObj _ => parseInt_string env <$> ToString env v
  end.

(** [s.split(" ")] *)
Fixpoint split_space (s : string) : list string :=
  match s with
  | EmptyString => [EmptyString]
  | String c rest =>
      if Ascii.eqb c " " then EmptyString :: split_space rest
      else
        match split_space rest with
        | h :: t => String c h :: t
        | [] => [String c EmptyString]
        end
  end.

(** ** Token service (lines 19-43) *)

Definition createToken (env : Env) (at_time : N) (user : gmap string value) : string :=
  jwt_sign env (field user "email") at_time.

Inductive Verdict : Type :=
| Next (user : value)
| Reply (r : Response).

Definition not_authorized : Response :=
  status_json 401 (BText "You are not authorized").

Definition verifyToken (env : Env) (req : Request) : Verdict :=
  match authorization req with
  | None => Reply not_authorized              (* [.split] of undefined throws *)
  | Some header =>
      match split_space header !! 1%nat with
      | None => Reply not_authorized          (* [jwt.verify(undefined)] throws *)
      | Some token =>
          match jwt_verify env token (now req) with
          | None => Reply not_authorized
          | Some email =>
              if truthy email then Next email else Reply not_authorized
          end
      end
  end.

(** A route with a middleware in front of its handler. *)
Definition guarded (env : Env) (handler : Request -> M Response) (req : Request) : M Response :=
  match verifyToken env req with
  | Next _ => handler req
  | Reply r => ret r
  end.

(** ** Routes (lines 71-256 and 270-272) *)

Definition product_not_found : Response :=
  status_json 404 (BMessage "Product not found").

(** [POST /user] *)
Definition post_user (env : Env) (req : Request) : M Response :=
  let user := body req in
  let token := createToken env (now req) user in
  let* isUserExist := users_findOne_email env (field user "email") in
  match isUserExist with
  | Some _ => ret (send (BAuth "success" "Login success" token))
  | None =>
      let* _ := users_insertOne env user in
      ret (send (BAuth "success" "Registration successful" token))
  end.

(** [GET /user/get/:id] *)
Definition get_user_by_id (req : Request) : M Response :=
  let* id := new_ObjectId (param req) in
  let* result := users_findOne_id id in
  ret (send (BUser result)).

(** [GET /user/:email] *)
Definition get_user_by_email (req : Request) : M Response :=
  let* result := users_findOne_address (param req) in
  ret (send (BUser result)).

(** The object literal of lines 107 and 147-153; [None] when [parseFloat]
    or [parseInt] throws. *)
Definition fields_of_body (env : Env) (b : gmap string value) : option ProductFields :=
  match parseFloat env (field b "price") with
  | None => None
  | Some newPrice =>
      match parseInt env (field b "stock") with
      | None => None
      | Some newStock =>
          Some {| f_name := field b "name";
                  f_description := field b "description";
                  f_price := newPrice;
                  f_imageURL := field b "imageURL";
                  f_stock := newStock |}
      end
  end.

(** [POST /products]: the object literal is built before the [try]. *)
Definition post_products (env : Env) (req : Request) : M Response :=
  let* newProduct := convert (fields_of_body env (body req)) in
  try_catch
    (let* insertedId := products_insertOne newProduct in
     let* createdProduct := products_findOne insertedId in
     ret (status_json 201 (BProduct createdProduct)))
    (fun _ => ret (status_json 400 (BMessage "Failed to add product"))).

(** [GET /products] *)
Definition get_products (req : Request) : M Response :=
  try_catch
    (let* products := products_find in
     ret (send (BProducts products)))
    (fun _ => ret (status_json 500 (BMessage "Failed to fetch products"))).

(** [GET /products/:id] *)
Definition get_product (req : Request) : M Response :=
  try_catch
    (let* id := new_ObjectId (param req) in
     let* product := products_findOne id in
     match product with
     | None => ret product_not_found
     | Some _ => ret (send (BProduct product))
     end)
    (fun _ => ret (status_json 500 (BMessage "Failed to fetch product"))).

(** [PATCH /products/:id], behind [verifyToken]: the object literal is built
    before the [try]. *)
Definition patch_product_handler (env : Env) (req : Request) : M Response :=
  let* updatedProduct := convert (fields_of_body env (body req)) in
  try_catch
    (let* id := new_ObjectId (param req) in
     let* result := products_updateOne id (SetFields updatedProduct) in
     if (modifiedCount result =? 0)%nat then ret product_not_found
     else ret (send (BFields updatedProduct)))
    (fun _ => ret (status_json 400 (BMessage "Failed to update product"))).

Definition patch_product (env : Env) : Request -> M Response :=
  guarded env (patch_product_handler env).

(** [DELETE /products/:id], behind [verifyToken] *)
Definition delete_product_handler (req : Request) : M Response :=
  try_catch
    (let* id := new_ObjectId (param req) in
     let* deletedCount := products_deleteOne id in
     if (deletedCount =? 0)%nat then ret product_not_found
     else ret (send (BMessage "Product deleted")))
    (fun _ => ret (status_json 500 (BMessage "Failed to delete product"))).

Definition delete_product (env : Env) : Request -> M Response :=
  guarded env delete_product_handler.

(** The argument of [stripe.paymentIntents.create] at lines 201-207, for the
    number that the quantity coerces to. *)
Definition intent_params (product : Product) (quantity : number) : IntentParams :=
  {| amount := num_mul (num_mul (price product) quantity) hundred;
     currency := "usd";
     payment_method_types := ["card"] |}.

(** [POST /products/:id/purchase] *)
Definition purchase (env : Env) (req : Request) : M Response :=
  let productId := param req in
  let quantity := field (body req) "quantity" in
  try_catch
    (let* id := new_ObjectId productId in
     let* found := products_findOne id in
     match found with
     | None => ret product_not_found
     | Some (_, product) =>
         let* q := convert (ToNumber env quantity) in
         if num_ltb (stock product) q then
           ret (status_json 400 (BMessage "Not enough stock available"))
         else
           let* paymentIntent :=
             paymentIntents_create env (intent_params product q) in
           ret (send (BClientSecret (client_secret paymentIntent)))
     end)
    (fun _ => ret (status_json 500 (BMessage "Failed to create payment intent"))).

(** Lines 234-235, for the number that the quantity coerces to. *)
Definition updatedStock_of (product : Product) (quantity : number) : number :=
  num_sub (stock product) quantity.

Definition status_label (updatedStock : number) : string :=
  if num_strict_eq updatedStock zero then "Out of Stock" else "In Stock".

(** [POST /products/:id/confirm-payment] *)
Definition confirm_payment (env : Env) (req : Request) : M Response :=
  let productId := param req in
  let paymentIntentId := field (body req) "paymentIntentId" in
  let quantity := field (body req) "quantity" in
  try_catch
    (let* id := new_ObjectId productId in
     let* found := products_findOne id in
     match found with
     | None => ret product_not_found
     | Some (_, product) =>
         let* paymentIntent := paymentIntents_retrieve env paymentIntentId in
         if String.eqb (pi_status paymentIntent) "succeeded" then
           let* q := convert (ToNumber env quantity) in
           let updatedStock := updatedStock_of product q in
           let st := status_label updatedStock in
           let* id2 := new_ObjectId productId in
           let* result :=
             products_updateOne id2 (SetStock updatedStock (VStr st)) in
           if (modifiedCount result =? 0)%nat then
             ret (status_json 400 (BMessage "Failed to update product stock"))
           else
             let* id3 := new_ObjectId productId in
             let* updatedProduct := products_findOne id3 in
             ret (send (BPayment "Payment succeeded" updatedProduct))
         else
           ret (status_json 400 (BMessage "Payment not successful"))
     end)
    (fun _ => ret (status_json 500 (BError "Failed to confirm payment"))).

(** [GET /] *)
Definition root (req : Request) : M Response :=
  ret (send (BText "Route is working")).

(** ** Predicates for stating properties of the routes *)

(** The string holds no space character. *)
Fixpoint no_space (s : string) : bool :=
  match s with
  | EmptyString => true
  | String c rest => negb (Ascii.eqb c " ") && no_space rest
  end.

(** Every stored e-mail is a scalar (or missing). *)
Definition emails_scalar (l : list User) : bool :=
  forallb (fun u => scalar (email_of u)) l.

(** No stored user is selected by the filter [{ email }] made of the e-mail
    of a user stored before it. *)
Fixpoint emails_distinct (l : list User) : bool :=
  match l with
  | [] => true
  | u :: rest =>
      forallb (fun v => negb (email_matches (email_of u) v)) rest
      && emails_distinct rest
  end.

(** ** Sample collaborators and data *)

Module Demo.

Definition digit_of (c : ascii) : option Z :=
  let n := N_of_ascii c in
  if ((48 <=? n) && (n <=? 57))%N then Some (Z.of_N (n - 48)) else None.

Fixpoint decimal (acc : Z) (s : string) : number :=
  match s with
  | EmptyString => num_of_Z acc
  | String c rest =>
      match digit_of c with
      | Some d => decimal (10 * acc + d) rest
      | None => NaN
      end
  end.

(** Reads a plain run of decimal digits; anything else is [NaN]. *)
Definition read_digits (s : string) : number :=
  match s with
  | EmptyString => NaN
  | _ => decimal 0 s
  end.

(** The integer part of a number, towards zero. *)
Definition truncate (n : number) : number :=
  match Prim2SF n with
  | S754_zero _ => zero
  | S754_finite s m e =>
      if (0 <=? e)%Z then n
      else num_of_Z (cond_Zopp s (Z.pos m / 2 ^ (- e)))
  | _ => NaN
  end.

Fixpoint digits_of (fuel : nat) (z : Z) (acc : string) : string :=
  match fuel with
  | O => acc
  | S fuel' =>
      let acc' := String (ascii_of_N (48 + Z.to_N (z mod 10))) acc in
      if (z <? 10)%Z then acc' else digits_of fuel' (z / 10) acc'
  end.

(** Prints a number that is a non-negative integer; "NaN" otherwise. *)
Definition print_number (n : number) : string :=
  match Prim2SF n with
  | S754_zero _ => "0"
  | S754_finite false m e =>
      if (0 <=? e)%Z then digits_of 400 (Z.pos m * 2 ^ e) EmptyString
      else if (Z.pos m mod 2 ^ (- e) =? 0)%Z
           then digits_of 400 (Z.pos m / 2 ^ (- e)) EmptyString
           else "NaN"
  | _ => "NaN"
  end.

Definition open_intent : PaymentIntent :=
  {| pi_id := "pi_open"; pi_status := "requires_payment_method";
     client_secret := "pi_open_secret" |}.

Definition paid_intent : PaymentIntent :=
  {| pi_id := "pi_paid"; pi_status := "succeeded";
     client_secret := "pi_paid_secret" |}.

Definition env : Env :=
  {| jwt_sign := fun email t =>
       match email with
       | VStr s => String (ascii_of_N t) s
       | _ => String (ascii_of_N t) EmptyString
       end;
     jwt_verify := fun token _ =>
       if String.eqb token "admin-token" then Some (VStr "admin@shop.test")
       else None;
     stripe_create := fun params =>
       if num_leb (num_of_Z 50) (amount params) then Some open_intent else None;
     stripe_retrieve := fun id =>
       match id with
       | VStr s =>
           if String.eqb s "pi_paid" then Some paid_intent
           else if String.eqb s "pi_open" then Some open_intent
           else None
       | _ => None
       end;
     operator_filter := fun fields =>
       match fields with
       | [(op, x)] =>
           if String.eqb op "$ne"
           then Some (fun stored => negb (value_equal x (bson stored)))
           else None
       | _ => None
       end;
     id_accepted := fun _ => true;
     number_to_string := print_number;
     string_to_number := read_digits;
     parseFloat_string := read_digits;
     parseInt_string := read_digits;
     parseInt_number := truncate |}.

Definition mug : Product :=
  {| name := VStr "Mug"; description := VStr "A mug"; price := num_of_Z 10;
     imageURL := VStr "mug.png"; stock := num_of_Z 5; status := VUndefined |}.

Definition last_lamp : Product :=
  {| name := VStr "Lamp"; description := VStr "A lamp"; price := num_of_Z 30;
     imageURL := VStr "lamp.png"; stock := num_of_Z 1; status := VStr "In Stock" |}.

Definition ann : User :=
  {| u_id := GeneratedId 7%N;
     u_doc := {[ "email" := VStr "ann@shop.test"; "name" := VStr "Ann" ]} |}.

Definition world : World :=
  {| userCollection := [ann];
     productCollection := {[ 1%N := mug; 2%N := last_lamp ]} |}.

Definition mug_id : string := "000000000000000000000001".
Definition lamp_id : string := "000000000000000000000002".
Definition absent_id : string := "0000000000000000000000ff".
Definition malformed_id : string := "not-an-object-id".

Definition request (p : string) (b : gmap string value) : Request :=
  {| param := p; authorization := None; body := b; now := 65%N |}.

Definition admin_request (p : string) (b : gmap string value) : Request :=
  {| param := p; authorization := Some "Bearer admin-token"; body := b;
     now := 65%N |}.

(** [{quantity: q}] and [{paymentIntentId: i, quantity: q}] *)
Definition buy (q : Z) : gmap string value :=
  {[ "quantity" := VNum (num_of_Z q) ]}.

Definition pay (i : string) (q : Z) : gmap string value :=
  {[ "paymentIntentId" := VStr i; "quantity" := VNum (num_of_Z q) ]}.

(** A second registration with the e-mail of [ann] and another name. *)
Definition register_again : Request :=
  request "" {[ "email" := VStr "ann@shop.test"; "name" := VStr "Bob" ]}.

End Demo.

(** ** More sample requests and data *)

Module Samples.

Definition register_bob : Request :=
  Demo.request "" {[ "email" := VStr "bob@shop.test" ]}.




Definition basic_scheme : Request :=
  {| param := Demo.mug_id; authorization := Some "Basic admin-token";
     body := ∅; now := 65%N |}.

Definition rename_mug : Request :=
  Demo.request Demo.mug_id {[ "name" := VStr "Cup" ]}.



Definition mug_fields : gmap string value :=
  {[ "name" := VStr "Mug"; "description" := VStr "A mug";
     "price" := VNum (num_of_Z 10); "imageURL" := VStr "mug.png";
     "stock" := VNum (num_of_Z 5) ]}.

Definition admin_same_mug : Request :=
  Demo.admin_request Demo.mug_id mug_fields.


(** A price that [parseFloat] cannot turn into a string. *)
Definition unprintable : value := VObj [("toString", VNull)].

Definition add_unprintable : Request :=
  Demo.request "" {[ "name" := VStr "Mug"; "price" := unprintable ]}.

Definition admin_patch_unprintable : Request :=
  Demo.admin_request Demo.mug_id {[ "name" := VStr "Cup"; "price" := unprintable ]}.

Definition malformed : Request := Demo.request Demo.malformed_id ∅.

Definition admin_absent : Request := Demo.admin_request Demo.absent_id ∅.

Definition admin_delete_mug : Request := Demo.admin_request Demo.mug_id ∅.

Definition buy_nothing : Request := Demo.request Demo.mug_id (Demo.buy 0).

Definition buy_two : Request := Demo.request Demo.mug_id (Demo.buy 2).

Definition buy_six : Request := Demo.request Demo.mug_id (Demo.buy 6).

Definition buy_without_quantity : Request := Demo.request Demo.mug_id ∅.

Definition pay_unknown_intent : Request :=
  Demo.request Demo.lamp_id (Demo.pay "pi_none" 1).

Definition pay_open_intent : Request :=
  Demo.request Demo.lamp_id (Demo.pay "pi_open" 1).

Definition pay_no_lamp : Request :=
  Demo.request Demo.lamp_id (Demo.pay "pi_paid" 0).

Definition pay_one_lamp : Request :=
  Demo.request Demo.lamp_id (Demo.pay "pi_paid" 1).

Definition pay_three_lamps : Request :=
  Demo.request Demo.lamp_id (Demo.pay "pi_paid" 3).

Definition pay_two_mugs : Request :=
  Demo.request Demo.mug_id (Demo.pay "pi_paid" 2).

Definition pay_without_quantity : Request :=
  Demo.request Demo.lamp_id {[ "paymentIntentId" := VStr "pi_paid" ]}.

Definition absent_product : Request := Demo.request Demo.absent_id ∅.

(** A product priced 19.99, and one whose stock is 2^54. *)
Definition pen : Product :=
  {| name := VStr "Pen"; description := VStr "A pen"; price := 19.99%float;
     imageURL := VStr "pen.png"; stock := num_of_Z 3; status := VUndefined |}.

Definition bulk : Product :=
  {| name := VStr "Nails"; description := VStr "Nails"; price := num_of_Z 1;
     imageURL := VStr "nails.png"; stock := 18014398509481984%float;
     status := VStr "In Stock" |}.

Definition warehouse : World :=
  {| userCollection := [];
     productCollection := {[ 1%N := pen; 2%N := bulk ]} |}.

Definition buy_one : Request := Demo.request Demo.mug_id (Demo.buy 1).





End Samples.

(** * Facts about binary64

    Read off the specification of the primitive floats: the sign of a
    difference of two doubles is the outcome of their comparison. *)

Module Binary64.

Local Open Scope Z_scope.

(** binary64 parameters *)
Lemma emin_value : SpecFloat.emin prec emax = -1074.
Proof. reflexivity. Qed.

Lemma fexp_value (e : Z) : fexp prec emax e = Z.max (e - 53) (-1074).
Proof. reflexivity. Qed.

Lemma digits2_pos_bounds (m : positive) :
  2 ^ (Zpos (digits2_pos m) - 1) <= Zpos m < 2 ^ Zpos (digits2_pos m).
Proof.
  induction m as [m IH|m IH|]; simpl digits2_pos.
  - rewrite Pos2Z.inj_succ.
    replace (Z.succ (Zpos (digits2_pos m)) - 1) with (Zpos (digits2_pos m)) by lia.
    rewrite Z.pow_succ_r by lia.
    assert (H : 2 ^ Zpos (digits2_pos m) = 2 * 2 ^ (Zpos (digits2_pos m) - 1)).
    { rewrite <- Z.pow_succ_r by lia. f_equal. lia. }
    lia.
  - rewrite Pos2Z.inj_succ.
    replace (Z.succ (Zpos (digits2_pos m)) - 1) with (Zpos (digits2_pos m)) by lia.
    rewrite Z.pow_succ_r by lia.
    assert (H : 2 ^ Zpos (digits2_pos m) = 2 * 2 ^ (Zpos (digits2_pos m) - 1)).
    { rewrite <- Z.pow_succ_r by lia. f_equal. lia. }
    lia.
  - simpl. lia.
Qed.

Lemma iter_xO_value (m d : positive) :
  Zpos (Pos.iter xO m d) = Zpos m * 2 ^ Zpos d.
Proof.
  induction d as [|d IH] using Pos.peano_ind.
  - simpl. lia.
  - rewrite Pos.iter_succ, Pos2Z.inj_succ, Z.pow_succ_r by lia.
    rewrite Pos2Z.inj_xO, IH. lia.
Qed.

Lemma shl_align_value (m : positive) (e ez : Z) :
  ez <= e ->
  Zpos (fst (shl_align m e ez)) = Zpos m * 2 ^ (e - ez).
Proof.
  intros Hle. unfold shl_align.
  destruct (ez - e) as [|d|d] eqn:Hd.
  - replace (e - ez) with 0 by lia. simpl. lia.
  - lia.
  - replace (e - ez) with (Zpos d) by lia. cbn [fst]. apply iter_xO_value.
Qed.

(** What [bounded] says of a binary64 mantissa and exponent. *)
Lemma bounded_inv (m : positive) (e : Z) :
  bounded prec emax m e = true ->
  -1074 <= e <= 971
  /\ Zpos (digits2_pos m) <= 53
  /\ (-1074 < e -> Zpos (digits2_pos m) = 53).
Proof.
  unfold bounded, canonical_mantissa. rewrite fexp_value.
  intros H. apply andb_true_iff in H as [Hc He].
  apply Z.eqb_eq in Hc. apply Z.leb_le in He.
  change (emax - prec) with 971 in He. lia.
Qed.

Lemma aligned_compare (mx my : positive) (ex ey : Z) :
  bounded prec emax mx ex = true ->
  bounded prec emax my ey = true ->
  (Zpos (fst (shl_align mx ex (Z.min ex ey)))
     ?= Zpos (fst (shl_align my ey (Z.min ex ey)))) =
  match ex ?= ey with
  | Lt => Lt
  | Gt => Gt
  | Eq => Pos.compare_cont Eq mx my
  end.
Proof.
  intros Hx Hy.
  destruct (bounded_inv mx ex Hx) as (Hex & Hdx & Hnx).
  destruct (bounded_inv my ey Hy) as (Hey & Hdy & Hny).
  pose proof (digits2_pos_bounds mx) as Bx.
  pose proof (digits2_pos_bounds my) as By.
  rewrite !shl_align_value by lia.
  destruct (ex ?= ey) eqn:Hc.
  - apply Z.compare_eq in Hc. subst ey.
    rewrite Z.min_id, Z.sub_diag. simpl (2 ^ 0). rewrite !Z.mul_1_r. reflexivity.
  - rewrite Z.compare_lt_iff in Hc. apply Z.compare_lt_iff.
    rewrite Z.min_l by lia. rewrite Z.sub_diag. simpl (2 ^ 0). rewrite Z.mul_1_r.
    rewrite (Hny ltac:(lia)) in By.
    assert (H53 : 2 ^ Zpos (digits2_pos mx) <= 2 ^ 53)
      by (apply Z.pow_le_mono_r; lia).
    assert (H2 : 2 ^ 1 <= 2 ^ (ey - ex)) by (apply Z.pow_le_mono_r; lia).
    change (2 ^ (53 - 1)) with 4503599627370496 in By.
    change (2 ^ 53) with 9007199254740992 in *.
    change (2 ^ 1) with 2 in H2. nia.
  - rewrite Z.compare_gt_iff in Hc. apply Z.compare_gt_iff.
    rewrite Z.min_r by lia. rewrite Z.sub_diag. simpl (2 ^ 0). rewrite Z.mul_1_r.
    rewrite (Hnx ltac:(lia)) in Bx.
    assert (H53 : 2 ^ Zpos (digits2_pos my) <= 2 ^ 53)
      by (apply Z.pow_le_mono_r; lia).
    assert (H2 : 2 ^ 1 <= 2 ^ (ex - ey)) by (apply Z.pow_le_mono_r; lia).
    change (2 ^ (53 - 1)) with 4503599627370496 in Bx.
    change (2 ^ 53) with 9007199254740992 in *.
    change (2 ^ 1) with 2 in H2. nia.
Qed.

(** Iterating with [iter_pos] *)
Lemma iter_pos_shift {A : Type} (f : A -> A) (n : positive) (x : A) :
  SpecFloat.iter_pos f n (f x) = f (SpecFloat.iter_pos f n x).
Proof.
  revert x. induction n as [n IH|n IH|]; intros x; simpl.
  - rewrite !IH. reflexivity.
  - rewrite !IH. reflexivity.
  - reflexivity.
Qed.

Lemma iter_pos_succ {A : Type} (f : A -> A) (n : positive) (x : A) :
  SpecFloat.iter_pos f (Pos.succ n) x = f (SpecFloat.iter_pos f n x).
Proof.
  revert x. induction n as [n IH|n IH|]; intros x; simpl.
  - rewrite !IH. rewrite !iter_pos_shift. reflexivity.
  - rewrite !iter_pos_shift. reflexivity.
  - reflexivity.
Qed.

Lemma shr_1_positive (r : shr_record) (p : positive) :
  shr_m r = Zpos p -> 1 < Zpos (digits2_pos p) ->
  exists p', shr_m (shr_1 r) = Zpos p'
             /\ Zpos (digits2_pos p') = Zpos (digits2_pos p) - 1.
Proof.
  destruct r as [m b s]. cbn [shr_m]. intros -> Hd.
  destruct p as [q|q|].
  - exists q. split; [reflexivity|].
    change (digits2_pos q~1) with (Pos.succ (digits2_pos q)). lia.
  - exists q. split; [reflexivity|].
    change (digits2_pos q~0) with (Pos.succ (digits2_pos q)). lia.
  - change (digits2_pos 1) with 1%positive in Hd. lia.
Qed.

Lemma shr_iter_positive (n : positive) (r : shr_record) (p : positive) :
  shr_m r = Zpos p -> Zpos n < Zpos (digits2_pos p) ->
  exists p', shr_m (SpecFloat.iter_pos shr_1 n r) = Zpos p'
             /\ Zpos (digits2_pos p') = Zpos (digits2_pos p) - Zpos n.
Proof.
  intros Hm. induction n as [|n IH] using Pos.peano_ind; intros Hn.
  - simpl. apply shr_1_positive; assumption.
  - rewrite iter_pos_succ.
    destruct IH as (q & Hq & Hdq); [lia|].
    destruct (shr_1_positive _ q Hq) as (q' & Hq' & Hdq'); [lia|].
    exists q'. split; [exact Hq'|lia].
Qed.

Lemma shr_record_of_loc_m (m : Z) (l : location) :
  shr_m (shr_record_of_loc m l) = m.
Proof. destruct l as [|[]]; reflexivity. Qed.

Lemma shr_fexp_positive (p : positive) (e : Z) (l : location) :
  -1074 <= e ->
  exists p' e', shr_m (fst (shr_fexp prec emax (Zpos p) e l)) = Zpos p'
                /\ snd (shr_fexp prec emax (Zpos p) e l) = e'
                /\ -1074 <= e'.
Proof.
  intros He. unfold shr_fexp, shr. rewrite fexp_value. simpl Zdigits2.
  destruct (Z.max (Zpos (digits2_pos p) + e - 53) (-1074) - e) as [|k|k] eqn:Hk.
  - exists p, e. simpl. rewrite shr_record_of_loc_m. auto.
  - destruct (shr_iter_positive k (shr_record_of_loc (Zpos p) l) p) as (q & Hq & _).
    + apply shr_record_of_loc_m.
    + lia.
    + exists q, (e + Zpos k). simpl. split; [exact Hq|split; [reflexivity|lia]].
  - exists p, e. simpl. rewrite shr_record_of_loc_m. auto.
Qed.

Lemma round_nearest_even_positive (p : positive) (l : location) :
  exists q, round_nearest_even (Zpos p) l = Zpos q.
Proof.
  destruct l as [|[]]; cbn [round_nearest_even]; try (eexists; reflexivity).
  destruct (Z.even (Zpos p)); eexists; reflexivity.
Qed.

Lemma binary_round_aux_sign (s : bool) (p : positive) (e : Z) (l : location) :
  -1074 <= e ->
  (exists m' e', binary_round_aux prec emax s (Zpos p) e l = S754_finite s m' e')
  \/ binary_round_aux prec emax s (Zpos p) e l = S754_infinity s.
Proof.
  intros He. unfold binary_round_aux.
  destruct (shr_fexp_positive p e l He) as (p1 & e1 & Hm1 & He1 & Hge1).
  destruct (shr_fexp prec emax (Zpos p) e l) as [mrs1 e1'].
  simpl in Hm1, He1. subst e1'. rewrite Hm1.
  destruct (round_nearest_even_positive p1 (loc_of_shr_record mrs1)) as (p2 & ->).
  destruct (shr_fexp_positive p2 e1 loc_Exact Hge1) as (p3 & e3 & Hm3 & He3 & _).
  destruct (shr_fexp prec emax (Zpos p2) e1 loc_Exact) as [mrs3 e3'].
  simpl in Hm3, He3. subst e3'. rewrite Hm3.
  destruct (e3 <=? emax - prec); [left; eauto|right; reflexivity].
Qed.

Lemma binary_round_sign (s : bool) (m : positive) (e : Z) :
  -1074 <= e ->
  (exists m' e', binary_round prec emax s m e = S754_finite s m' e')
  \/ binary_round prec emax s m e = S754_infinity s.
Proof.
  intros He. unfold binary_round.
  destruct (shl_align m e (fexp prec emax (Zpos (digits2_pos m) + e)))
    as [mz ez] eqn:Hal.
  apply binary_round_aux_sign.
  unfold shl_align in Hal. rewrite fexp_value in Hal.
  destruct (Z.max (Zpos (digits2_pos m) + e - 53) (-1074) - e);
    injection Hal as _ <-; lia.
Qed.

Lemma binary_normalize_compare (z e : Z) :
  -1074 <= e ->
  SFcompare (binary_normalize prec emax z e false) (S754_zero false) =
    Some (z ?= 0).
Proof.
  intros He. destruct z as [|m|m]; simpl.
  - reflexivity.
  - destruct (binary_round_sign false m e He) as [(m' & e' & ->)| ->]; reflexivity.
  - destruct (binary_round_sign true m e He) as [(m' & e' & ->)| ->]; reflexivity.
Qed.

Lemma SFcompare_antisym (x y : spec_float) :
  SFcompare y x = option_map CompOpp (SFcompare x y).
Proof.
  destruct x as [sx|sx| |sx mx ex], y as [sy|sy| |sy my ey]; simpl;
    try reflexivity;
    try (destruct sx; reflexivity); try (destruct sy; reflexivity);
    try (destruct sx, sy; reflexivity).
  assert (Hp : Pos.compare_cont Eq my mx = CompOpp (Pos.compare_cont Eq mx my))
    by (symmetry; apply (Pos.compare_cont_antisym mx my Eq)).
  destruct sx, sy; try reflexivity;
    rewrite (Z.compare_antisym ex ey), Hp;
    destruct (ex ?= ey); try reflexivity;
    destruct (Pos.compare_cont Eq mx my); reflexivity.
Qed.

(** The sign of a difference of two doubles is the outcome of their
    comparison, except for two infinities of the same sign. *)
Lemma SF64sub_compare (x y : spec_float) :
  valid_binary x = true ->
  valid_binary y = true ->
  (forall s, ~ (x = S754_infinity s /\ y = S754_infinity s)) ->
  SFcompare (SF64sub x y) (S754_zero false) = SFcompare x y.
Proof.
  intros Vx Vy Hinf.
  destruct x as [sx|sx| |sx mx ex], y as [sy|sy| |sy my ey]; simpl;
    try reflexivity;
    try (destruct sx; reflexivity); try (destruct sy; reflexivity);
    try (destruct sx, sy; reflexivity).
  - destruct sx, sy; try reflexivity.
    + exfalso. apply (Hinf true). split; reflexivity.
    + exfalso. apply (Hinf false). split; reflexivity.
  - simpl in Vx, Vy.
    destruct (bounded_inv mx ex Vx) as (Hex & _).
    destruct (bounded_inv my ey Vy) as (Hey & _).
    unfold SF64sub, SFsub. cbv zeta.
    rewrite binary_normalize_compare by lia.
    f_equal.
    pose proof (aligned_compare mx my ex ey Vx Vy) as Hcmp.
    set (a := Zpos (fst (shl_align mx ex (Z.min ex ey)))) in *.
    set (b := Zpos (fst (shl_align my ey (Z.min ex ey)))) in *.
    assert (Ha : 0 < a) by (unfold a; lia).
    assert (Hb : 0 < b) by (unfold b; lia).
    destruct sx, sy; cbn [cond_Zopp]; revert Hcmp;
      destruct (ex ?= ey); try destruct (Pos.compare_cont Eq mx my);
      cbn [CompOpp]; intros Hcmp;
      rewrite ?Z.compare_eq_iff, ?Z.compare_lt_iff, ?Z.compare_gt_iff in *; lia.
Qed.

Local Open Scope float_scope.

Lemma Prim2SF_inj (x y : float) : Prim2SF x = Prim2SF y -> x = y.
Proof.
  intros H. rewrite <- (SF2Prim_Prim2SF x), <- (SF2Prim_Prim2SF y), H.
  reflexivity.
Qed.

Lemma Prim2SF_zero : Prim2SF 0 = S754_zero false.
Proof. reflexivity. Qed.

Lemma Prim2SF_nan : Prim2SF nan = S754_nan.
Proof. reflexivity. Qed.

Lemma Prim2SF_infinity : Prim2SF infinity = S754_infinity false.
Proof. reflexivity. Qed.

Lemma float_ltb_compare (x y : float) :
  (x <? y) = true <-> SFcompare (Prim2SF x) (Prim2SF y) = Some Lt.
Proof.
  rewrite FloatAxioms.ltb_spec. unfold SFltb.
  destruct (SFcompare (Prim2SF x) (Prim2SF y)) as [[]|]; split; congruence.
Qed.

Lemma float_sub_compare (x y : float) :
  (forall s, ~ (Prim2SF x = S754_infinity s /\ Prim2SF y = S754_infinity s)) ->
  SFcompare (Prim2SF (x - y)) (Prim2SF 0) = SFcompare (Prim2SF x) (Prim2SF y).
Proof.
  intros Hinf. rewrite FloatAxioms.sub_spec, Prim2SF_zero.
  apply SF64sub_compare; auto using Prim2SF_valid.
Qed.

Lemma float_lt_sub_negative (x y : float) :
  (x <? y) = true -> ((x - y) <? 0) = true /\ ((x - y) =? 0) = false.
Proof.
  intros Hlt. apply float_ltb_compare in Hlt.
  assert (Hsub : SFcompare (Prim2SF (x - y)) (Prim2SF 0) = Some Lt).
  { rewrite float_sub_compare; [exact Hlt|].
    intros s [Hx Hy]. rewrite Hx, Hy in Hlt. destruct s; discriminate Hlt. }
  split.
  - apply float_ltb_compare. exact Hsub.
  - rewrite FloatAxioms.eqb_spec. unfold SFeqb. rewrite Hsub. reflexivity.
Qed.

Lemma float_leb_not_ltb (x y : float) :
  (x <=? y) = true -> (y <? x) = false.
Proof.
  rewrite FloatAxioms.leb_spec, FloatAxioms.ltb_spec. unfold SFleb, SFltb.
  rewrite (SFcompare_antisym (Prim2SF x) (Prim2SF y)).
  destruct (SFcompare (Prim2SF x) (Prim2SF y)) as [[]|]; simpl; congruence.
Qed.

Lemma float_eqb_sym (x y : float) : (x =? y) = (y =? x).
Proof.
  rewrite !FloatAxioms.eqb_spec. unfold SFeqb.
  rewrite (SFcompare_antisym (Prim2SF x) (Prim2SF y)).
  destruct (SFcompare (Prim2SF x) (Prim2SF y)) as [[]|]; reflexivity.
Qed.

Lemma float_ltb_nan (x : float) : (x <? nan) = false.
Proof.
  rewrite FloatAxioms.ltb_spec, Prim2SF_nan. unfold SFltb.
  destruct (Prim2SF x); reflexivity.
Qed.

Lemma float_sub_nan (x : float) : x - nan = nan.
Proof.
  apply Prim2SF_inj. rewrite FloatAxioms.sub_spec, Prim2SF_nan.
  destruct (Prim2SF x); reflexivity.
Qed.

Lemma float_mul_nan (x : float) : x * nan = nan.
Proof.
  apply Prim2SF_inj. rewrite FloatAxioms.mul_spec, Prim2SF_nan.
  destruct (Prim2SF x); reflexivity.
Qed.

Lemma float_nan_mul (x : float) : nan * x = nan.
Proof.
  apply Prim2SF_inj. rewrite FloatAxioms.mul_spec, Prim2SF_nan. reflexivity.
Qed.

Lemma is_finite_not_infinity (x : float) (s : bool) :
  is_finite x = true -> Prim2SF x <> S754_infinity s.
Proof.
  unfold is_finite, is_infinity. intros Hfin Hx.
  apply negb_true_iff, orb_false_iff in Hfin as [_ Hinf].
  rewrite FloatAxioms.eqb_spec, FloatAxioms.abs_spec, Hx, Prim2SF_infinity in Hinf. discriminate Hinf.
Qed.

Lemma float_le_sub_covered (x y : float) :
  is_finite x = true -> (y <=? x) = true ->
  (0 <=? (x - y)) = true /\ ((x - y) =? 0) = (y =? x).
Proof.
  intros Hfin Hle.
  assert (Hsub : SFcompare (Prim2SF (x - y)) (Prim2SF 0) =
                 SFcompare (Prim2SF x) (Prim2SF y)).
  { apply float_sub_compare. intros s [Hx _].
    exact (is_finite_not_infinity x s Hfin Hx). }
  rewrite FloatAxioms.leb_spec in Hle. unfold SFleb in Hle.
  rewrite (SFcompare_antisym (Prim2SF x) (Prim2SF y)) in Hle.
  rewrite FloatAxioms.leb_spec, !FloatAxioms.eqb_spec. unfold SFleb, SFeqb.
  rewrite (SFcompare_antisym (Prim2SF (x - y)) (Prim2SF 0)), Hsub.
  rewrite (SFcompare_antisym (Prim2SF x) (Prim2SF y)).
  destruct (SFcompare (Prim2SF x) (Prim2SF y)) as [[]|]; simpl in *;
    split; congruence.
Qed.

End Binary64.

(** * Facts about values *)

Section ValueInduction.

Variable P : value -> Prop.
Hypothesis Hundefined : P VUndefined.
Hypothesis Hnull : P VNull.
Hypothesis Hbool : forall b, P (VBool b).
Hypothesis Hnum : forall n, P (VNum n).
Hypothesis Hstr : forall s, P (VStr s).
Hypothesis Harr : forall items, Forall P items -> P (VArr items).
Hypothesis Hobj :
  forall fields, Forall (fun kv => P (snd kv)) fields -> P (VObj fields).

Lemma value_induction (v : value) : P v.
Proof.
  revert v. fix IH 1. intros [| |b|n|s|items|fields].
  - exact Hundefined.
  - exact Hnull.
  - apply Hbool.
  - apply Hnum.
  - apply Hstr.
  - apply Harr. induction items as [|x rest IHrest].
    + apply List.Forall_nil.
    + apply List.Forall_cons; [apply IH|exact IHrest].
  - apply Hobj. induction fields as [|kv rest IHrest].
    + apply List.Forall_nil.
    + apply List.Forall_cons; [apply IH|exact IHrest].
Qed.

End ValueInduction.

Lemma value_eqb_refl (num_eq : number -> number -> bool) :
  (forall n, num_eq n n = true) ->
  forall v, value_eqb num_eq v v = true.
Proof.
  intros Hnum. apply value_induction; simpl; auto.
  - intros b. destruct b; reflexivity.
  - intros s. apply String.eqb_refl.
  - intros items Hall. induction Hall as [|x rest Hx _ IH]; [reflexivity|].
    rewrite Hx. exact IH.
  - intros fields Hall. induction Hall as [|[k x] rest Hx _ IH]; [reflexivity|].
    simpl in Hx. rewrite String.eqb_refl, Hx. exact IH.
Qed.

Lemma num_same_refl (a : number) : num_same a a = true.
Proof. apply FloatAxioms.Leibniz.eqb_spec. reflexivity. Qed.


Lemma num_equal_sym (a b : number) : num_equal a b = num_equal b a.
Proof.
  unfold num_equal. rewrite (Binary64.float_eqb_sym a b).
  rewrite (andb_comm (is_nan a)). reflexivity.
Qed.

Lemma value_same_refl (v : value) : value_same v v = true.
Proof. apply value_eqb_refl. exact num_same_refl. Qed.


Lemma value_equal_sym_scalar (a b : value) :
  scalar a = true -> value_equal a b = value_equal b a.
Proof.
  destruct a as [| |x|n|s|xs|xs], b as [| |y|m|t|ys|ys]; simpl;
    try reflexivity; try discriminate; intros _.
  - destruct x, y; reflexivity.
  - apply num_equal_sym.
  - apply String.eqb_sym.
Qed.

Lemma bson_idempotent (v : value) : bson (bson v) = bson v.
Proof. destruct v; reflexivity. Qed.

Lemma bson_scalar (v : value) : scalar (bson v) = scalar v.
Proof. destruct v; reflexivity. Qed.


(** * Facts about the numbers of the handlers *)

Lemma num_geb_not_ltb (a b : number) :
  num_geb a b = true -> num_ltb a b = false.
Proof. apply Binary64.float_leb_not_ltb. Qed.

Lemma num_gtb_sub_negative (a b : number) :
  num_gtb b a = true -> num_ltb (num_sub a b) zero = true.
Proof. intros H. apply (Binary64.float_lt_sub_negative a b H). Qed.

Lemma num_gtb_sub_not_zero (a b : number) :
  num_gtb b a = true -> num_strict_eq (num_sub a b) zero = false.
Proof. intros H. apply (Binary64.float_lt_sub_negative a b H). Qed.

Lemma num_sub_covered (s q : number) :
  is_finite s = true ->
  num_geb s q = true ->
  num_leb zero (num_sub s q) = true
  /\ num_strict_eq (num_sub s q) zero = num_strict_eq q s.
Proof. apply Binary64.float_le_sub_covered. Qed.

Lemma status_label_out (s : number) :
  status_label s = "Out of Stock" <-> num_strict_eq s zero = true.
Proof.
  unfold status_label. destruct (num_strict_eq s zero); split; intros H;
    try reflexivity; discriminate.
Qed.

Lemma status_label_in (s : number) :
  status_label s = "In Stock" <-> num_strict_eq s zero = false.
Proof.
  unfold status_label. destruct (num_strict_eq s zero); split; intros H;
    try reflexivity; discriminate.
Qed.

(** * Running the handlers *)

Section Runs.

Variable env : Env.
Variables (req : Request) (w : World) (id : ObjectId).
Hypothesis Hid : parse_ObjectId (param req) = Some id.

Lemma get_product_absent :
  productCollection w !! id = None ->
  get_product req w = (Ok product_not_found, w, [ProductFindOne id]).
Proof.
  intros Hnone. unfold get_product, try_catch, bind, new_ObjectId, products_findOne.
  rewrite Hid. simpl. rewrite Hnone. reflexivity.
Qed.

Lemma get_product_present (p : Product) :
  productCollection w !! id = Some p ->
  get_product req w = (Ok (send (BProduct (Some (id, p)))), w, [ProductFindOne id]).
Proof.
  intros Hsome. unfold get_product, try_catch, bind, new_ObjectId, products_findOne.
  rewrite Hid. simpl. rewrite Hsome. reflexivity.
Qed.

Lemma purchase_absent :
  productCollection w !! id = None ->
  purchase env req w = (Ok product_not_found, w, [ProductFindOne id]).
Proof.
  intros Hnone. unfold purchase, try_catch, bind, new_ObjectId, products_findOne.
  rewrite Hid. simpl. rewrite Hnone. reflexivity.
Qed.

(** A quantity that cannot be coerced makes [<] throw inside the [try]. *)
Lemma purchase_uncoercible (p : Product) :
  productCollection w !! id = Some p ->
  ToNumber env (field (body req) "quantity") = None ->
  purchase env req w =
    (Ok (status_json 500 (BMessage "Failed to create payment intent")), w,
     [ProductFindOne id]).
Proof.
  intros Hsome Hq.
  unfold purchase, try_catch, bind, new_ObjectId, products_findOne, convert.
  rewrite Hid. simpl. rewrite Hsome. simpl. rewrite Hq. reflexivity.
Qed.

(** The three ways [purchase] ends once the product is found and the
    quantity coerces to a number. *)
Lemma purchase_present (p : Product) (q : number) :
  productCollection w !! id = Some p ->
  ToNumber env (field (body req) "quantity") = Some q ->
  purchase env req w =
    if num_ltb (stock p) q then
      (Ok (status_json 400 (BMessage "Not enough stock available")), w,
       [ProductFindOne id])
    else
      (Ok match stripe_create env (intent_params p q) with
          | Some intent => send (BClientSecret (client_secret intent))
          | None => status_json 500 (BMessage "Failed to create payment intent")
          end,
       w, [ProductFindOne id; StripeCreate (intent_params p q)]).
Proof.
  intros Hsome Hq.
  unfold purchase, try_catch, bind, new_ObjectId, products_findOne,
    paymentIntents_create, convert.
  rewrite Hid. simpl. rewrite Hsome. simpl. rewrite Hq. simpl.
  destruct (num_ltb (stock p) q); [reflexivity|].
  destruct (stripe_create env (intent_params p q)); reflexivity.
Qed.

Lemma confirm_payment_absent :
  productCollection w !! id = None ->
  confirm_payment env req w = (Ok product_not_found, w, [ProductFindOne id]).
Proof.
  intros Hnone.
  unfold confirm_payment, try_catch, bind, new_ObjectId, products_findOne.
  rewrite Hid. simpl. rewrite Hnone. reflexivity.
Qed.

Lemma confirm_payment_gateway_down (p : Product) :
  productCollection w !! id = Some p ->
  stripe_retrieve env (field (body req) "paymentIntentId") = None ->
  confirm_payment env req w =
    (Ok (status_json 500 (BError "Failed to confirm payment")), w,
     [ProductFindOne id; StripeRetrieve (field (body req) "paymentIntentId")]).
Proof.
  intros Hsome Hnone.
  unfold confirm_payment, try_catch, bind, new_ObjectId, products_findOne,
    paymentIntents_retrieve.
  rewrite Hid. simpl. rewrite Hsome. simpl. rewrite Hnone. reflexivity.
Qed.

Lemma confirm_payment_not_succeeded (p : Product) (intent : PaymentIntent) :
  productCollection w !! id = Some p ->
  stripe_retrieve env (field (body req) "paymentIntentId") = Some intent ->
  pi_status intent <> "succeeded" ->
  confirm_payment env req w =
    (Ok (status_json 400 (BMessage "Payment not successful")), w,
     [ProductFindOne id; StripeRetrieve (field (body req) "paymentIntentId")]).
Proof.
  intros Hsome Hget Hst.
  unfold confirm_payment, try_catch, bind, new_ObjectId, products_findOne,
    paymentIntents_retrieve.
  rewrite Hid. simpl. rewrite Hsome. simpl. rewrite Hget.
  apply String.eqb_neq in Hst. rewrite Hst. reflexivity.
Qed.

(** A quantity that cannot be coerced makes [-] throw inside the [try]. *)
Lemma confirm_payment_uncoercible (p : Product) (intent : PaymentIntent) :
  productCollection w !! id = Some p ->
  stripe_retrieve env (field (body req) "paymentIntentId") = Some intent ->
  pi_status intent = "succeeded" ->
  ToNumber env (field (body req) "quantity") = None ->
  confirm_payment env req w =
    (Ok (status_json 500 (BError "Failed to confirm payment")), w,
     [ProductFindOne id; StripeRetrieve (field (body req) "paymentIntentId")]).
Proof.
  intros Hsome Hget Hst Hq.
  unfold confirm_payment, try_catch, bind, new_ObjectId, products_findOne,
    paymentIntents_retrieve, convert.
  rewrite Hid. simpl. rewrite Hsome. simpl. rewrite Hget, Hst. simpl.
  rewrite Hq. reflexivity.
Qed.

(** What [confirm_payment] does once the intent has succeeded and the
    quantity coerces to a number: one [updateOne], and a second [findOne]
    only when it modified the document. *)
Lemma confirm_payment_succeeded (p : Product) (intent : PaymentIntent)
    (q : number) :
  productCollection w !! id = Some p ->
  stripe_retrieve env (field (body req) "paymentIntentId") = Some intent ->
  pi_status intent = "succeeded" ->
  ToNumber env (field (body req) "quantity") = Some q ->
  let updatedStock := updatedStock_of p q in
  let upd := SetStock updatedStock (VStr (status_label updatedStock)) in
  let p' := apply_update upd p in
  let w' := set_products w (<[id := p']> (productCollection w)) in
  confirm_payment env req w =
    if same_doc p p' then
      (Ok (status_json 400 (BMessage "Failed to update product stock")), w',
       [ProductFindOne id;
        StripeRetrieve (field (body req) "paymentIntentId");
        ProductUpdateOne id upd])
    else
      (Ok (send (BPayment "Payment succeeded" (Some (id, p')))), w',
       [ProductFindOne id;
        StripeRetrieve (field (body req) "paymentIntentId");
        ProductUpdateOne id upd;
        ProductFindOne id]).
Proof.
  intros Hsome Hget Hst Hq updatedStock upd p' w'.
  unfold confirm_payment, try_catch, bind, new_ObjectId, products_findOne,
    paymentIntents_retrieve, products_updateOne, convert.
  rewrite Hid. simpl. rewrite Hsome. simpl. rewrite Hget, Hst. simpl.
  rewrite Hq. simpl.
  rewrite Hsome. subst w' p' upd. simpl. fold updatedStock.
  destruct (same_doc p _); simpl; [reflexivity|].
  rewrite lookup_insert_eq. reflexivity.
Qed.

End Runs.

Lemma get_product_malformed (req : Request) (w : World) :
  parse_ObjectId (param req) = None ->
  get_product req w =
    (Ok (status_json 500 (BMessage "Failed to fetch product")), w, []).
Proof.
  intros Hbad. unfold get_product, try_catch, bind, new_ObjectId.
  rewrite Hbad. reflexivity.
Qed.

Lemma purchase_malformed (env : Env) (req : Request) (w : World) :
  parse_ObjectId (param req) = None ->
  purchase env req w =
    (Ok (status_json 500 (BMessage "Failed to create payment intent")), w, []).
Proof.
  intros Hbad. unfold purchase, try_catch, bind, new_ObjectId.
  rewrite Hbad. reflexivity.
Qed.

Lemma confirm_payment_malformed (env : Env) (req : Request) (w : World) :
  parse_ObjectId (param req) = None ->
  confirm_payment env req w =
    (Ok (status_json 500 (BError "Failed to confirm payment")), w, []).
Proof.
  intros Hbad. unfold confirm_payment, try_catch, bind, new_ObjectId.
  rewrite Hbad. reflexivity.
Qed.

(** * The scenarios of the specification, run on the sample data *)

Example scenario_purchase_keeps_stock :
  purchase Demo.env Samples.buy_two Demo.world =
    (Ok (send (BClientSecret "pi_open_secret")), Demo.world,
     [ProductFindOne 1%N;
      StripeCreate {| amount := 2000%float; currency := "usd";
                      payment_method_types := ["card"] |}]).
Proof. vm_compute. reflexivity. Qed.

Example scenario_confirm_two_of_five :
  (confirm_payment Demo.env Samples.pay_two_mugs Demo.world).1.1 =
    Ok (send (BPayment "Payment succeeded"
                (Some (1%N, {| name := VStr "Mug"; description := VStr "A mug";
                               price := 10%float; imageURL := VStr "mug.png";
                               stock := 3%float; status := VStr "In Stock" |})))).
Proof. vm_compute. reflexivity. Qed.

Example scenario_confirm_last_item :
  (confirm_payment Demo.env Samples.pay_one_lamp Demo.world).1.1 =
    Ok (send (BPayment "Payment succeeded"
                (Some (2%N, {| name := VStr "Lamp"; description := VStr "A lamp";
                               price := 30%float; imageURL := VStr "lamp.png";
                               stock := 0%float; status := VStr "Out of Stock" |})))).
Proof. vm_compute. reflexivity. Qed.

Example scenario_get_absent_product :
  get_product Samples.absent_product Demo.world =
    (Ok (status_json 404 (BMessage "Product not found")), Demo.world,
     [ProductFindOne 255%N]).
Proof. vm_compute. reflexivity. Qed.

Example scenario_patch_without_token :
  patch_product Demo.env Samples.rename_mug Demo.world =
    (Ok (status_json 401 (BText "You are not authorized")), Demo.world, []).
Proof. vm_compute. reflexivity. Qed.

(** Sending again what is stored modifies nothing, and the handler of
    [PATCH /products/:id] then answers 404. *)
Example scenario_patch_same_values :
  (patch_product Demo.env Samples.admin_same_mug Demo.world).1.1 =
    Ok (status_json 404 (BMessage "Product not found")).
Proof. vm_compute. reflexivity. Qed.

(** The arithmetic is that of doubles: a price of 19.99 gives an amount
    that is not a whole number of cents, and taking 1 off a stock of 2^54
    changes nothing, so the confirmation is answered 400. *)
Example scenario_amount_is_rounded :
  purchase Demo.env Samples.buy_one Samples.warehouse =
    (Ok (send (BClientSecret "pi_open_secret")), Samples.warehouse,
     [ProductFindOne 1%N;
      StripeCreate {| amount := 1998.9999999999998%float; currency := "usd";
                      payment_method_types := ["card"] |}]).
Proof. vm_compute. reflexivity. Qed.

Example scenario_stock_absorbs_quantity :
  (confirm_payment Demo.env Samples.pay_one_lamp Samples.warehouse).1.1 =
    Ok (status_json 400 (BMessage "Failed to update product stock")).
Proof. vm_compute. reflexivity. Qed.

(** * The checkout sequence *)

(** C1: for an existing product and any quantity that coerces to a number,
    [confirm_payment] with an intent whose status is "succeeded" persists
    [stock - quantity], as the subtraction of doubles gives it, with one
    single [updateOne] that carries both fields; the persisted status is
    "Out of Stock" exactly when the resulting stock is 0 and "In Stock"
    otherwise; nothing else in the store changes; and when the handler
    succeeds it answers with the product as it is read back. *)
Theorem confirm_payment_decrements_stock
    (env : Env) (req : Request) (w : World) (id : ObjectId)
    (p : Product) (intent : PaymentIntent) (quantity : number) :
  parse_ObjectId (param req) = Some id ->
  productCollection w !! id = Some p ->
  stripe_retrieve env (field (body req) "paymentIntentId") = Some intent ->
  pi_status intent = "succeeded" ->
  ToNumber env (field (body req) "quantity") = Some quantity ->
  exists (r : Response) (w' : World) (t : list Event) (p' : Product),
    confirm_payment env req w = (Ok r, w', t)
    /\ productCollection w' !! id = Some p'
    /\ stock p' = num_sub (stock p) quantity
    /\ (status p' = VStr "Out of Stock" <-> num_strict_eq (stock p') zero = true)
    /\ (status p' = VStr "In Stock" <-> num_strict_eq (stock p') zero = false)
    /\ List.filter is_store_write t =
         [ProductUpdateOne id (SetStock (stock p') (status p'))]
    /\ (name p', description p', price p', imageURL p') =
         (name p, description p, price p, imageURL p)
    /\ (forall j, j <> id -> productCollection w' !! j = productCollection w !! j)
    /\ userCollection w' = userCollection w
    /\ (code r = 200%nat ->
        r = send (BPayment "Payment succeeded" (Some (id, p'))))
    /\ (same_doc p p' = false -> code r = 200%nat).
Proof.
  intros Hid Hsome Hget Hst Hq.
  pose proof (confirm_payment_succeeded env req w id Hid p intent quantity
                Hsome Hget Hst Hq) as Hrun.
  cbv zeta in Hrun.
  set (s := updatedStock_of p quantity) in *.
  set (p' := apply_update (SetStock s (VStr (status_label s))) p) in *.
  assert (Hout : status p' = VStr "Out of Stock" <-> num_strict_eq (stock p') zero = true).
  { simpl. rewrite <- status_label_out. split; [intros [= ->]|intros ->]; reflexivity. }
  assert (Hin : status p' = VStr "In Stock" <-> num_strict_eq (stock p') zero = false).
  { simpl. rewrite <- status_label_in. split; [intros [= ->]|intros ->]; reflexivity. }
  assert (Hframe : forall j, j <> id ->
            <[id := p']> (productCollection w) !! j = productCollection w !! j).
  { intros j Hj. apply lookup_insert_ne. congruence. }
  destruct (same_doc p p') eqn:Hsame.
  - eexists _, _, _, p'. split; [exact Hrun|].
    repeat split; try (apply Hout); try (apply Hin); auto.
    + simpl. apply lookup_insert_eq.
    + intros Hcode. cbv in Hcode. discriminate Hcode.
    + intros Hmod. congruence.
  - eexists _, _, _, p'. split; [exact Hrun|].
    repeat split; try (apply Hout); try (apply Hin); auto.
    simpl. apply lookup_insert_eq.
Qed.

Lemma confirm_payment_decrements_stock_witness :
  exists (w' : World) (t : list Event),
    confirm_payment Demo.env Samples.pay_one_lamp Demo.world =
      (Ok (send (BPayment "Payment succeeded"
                   (Some (2%N, apply_update
                                 (SetStock (num_sub (num_of_Z 1) (num_of_Z 1))
                                    (VStr "Out of Stock")) Demo.last_lamp)))),
       w', t).
Proof.
  destruct (confirm_payment_decrements_stock Demo.env Samples.pay_one_lamp
              Demo.world 2%N Demo.last_lamp Demo.paid_intent (num_of_Z 1)
              eq_refl eq_refl eq_refl eq_refl eq_refl)
    as (r & w' & t & p' & Hrun & Hp' & Hstock & Hout & _ & _ & Hrest & _ & _ & Hok & Hmod).
  exists w', t. rewrite Hrun.
  assert (Hst : status p' = VStr "Out of Stock").
  { apply Hout. rewrite Hstock. reflexivity. }
  assert (Hp : p' = apply_update
                      (SetStock (num_sub (num_of_Z 1) (num_of_Z 1))
                         (VStr "Out of Stock")) Demo.last_lamp).
  { destruct p'; simpl in *. injection Hrest as -> -> -> ->. subst. reflexivity. }
  rewrite <- Hp. rewrite (Hok (Hmod ltac:(rewrite Hp; reflexivity))).
  reflexivity.
Defined.

(** C2: [confirm_payment] does not check that the stock suffices: with a
    quantity larger than the stock and a succeeded intent, the update is
    still sent and the persisted stock is [stock - quantity], below zero. *)
Theorem confirm_payment_drives_stock_negative
    (env : Env) (req : Request) (w : World) (id : ObjectId)
    (p : Product) (intent : PaymentIntent) (quantity : number) :
  parse_ObjectId (param req) = Some id ->
  productCollection w !! id = Some p ->
  stripe_retrieve env (field (body req) "paymentIntentId") = Some intent ->
  pi_status intent = "succeeded" ->
  ToNumber env (field (body req) "quantity") = Some quantity ->
  num_gtb quantity (stock p) = true ->
  exists (r : Response) (w' : World) (t : list Event) (p' : Product),
    confirm_payment env req w = (Ok r, w', t)
    /\ In (ProductUpdateOne id (SetStock (stock p') (status p'))) t
    /\ productCollection w' !! id = Some p'
    /\ stock p' = num_sub (stock p) quantity
    /\ num_ltb (stock p') zero = true.
Proof.
  intros Hid Hsome Hget Hst Hq Hgt.
  pose proof (confirm_payment_succeeded env req w id Hid p intent quantity
                Hsome Hget Hst Hq) as Hrun.
  cbv zeta in Hrun.
  set (s := updatedStock_of p quantity) in *.
  set (p' := apply_update (SetStock s (VStr (status_label s))) p) in *.
  assert (Hneg : num_ltb (stock p') zero = true).
  { simpl. apply num_gtb_sub_negative. exact Hgt. }
  destruct (same_doc p p');
    (eexists _, _, _, p'; split; [exact Hrun|]; repeat split; auto;
     [simpl; auto | simpl; apply lookup_insert_eq]).
Qed.

Lemma confirm_payment_drives_stock_negative_witness :
  exists (r : Response) (w' : World) (t : list Event) (p' : Product),
    confirm_payment Demo.env Samples.pay_three_lamps Demo.world = (Ok r, w', t)
    /\ productCollection w' !! 2%N = Some p'
    /\ stock p' = num_sub (num_of_Z 1) (num_of_Z 3).
Proof.
  destruct (confirm_payment_drives_stock_negative Demo.env
              Samples.pay_three_lamps Demo.world
              2%N Demo.last_lamp Demo.paid_intent (num_of_Z 3)
              eq_refl eq_refl eq_refl eq_refl eq_refl eq_refl)
    as (r & w' & t & p' & Hrun & _ & Hp' & Hstock & _).
  exists r, w', t, p'. repeat split; assumption.
Defined.

(** C3: for an existing product whose stock is at least the quantity,
    [purchase] asks the gateway for one payment intent of
    [price * quantity * 100], as the multiplication of doubles gives it, in
    "usd", answers with the client secret that the gateway gives, and
    leaves the store as it was. *)
Theorem purchase_requests_intent
    (env : Env) (req : Request) (w : World) (id : ObjectId) (p : Product)
    (quantity : number) :
  parse_ObjectId (param req) = Some id ->
  productCollection w !! id = Some p ->
  ToNumber env (field (body req) "quantity") = Some quantity ->
  num_geb (stock p) quantity = true ->
  let params :=
    {| amount := num_mul (num_mul (price p) quantity) hundred;
       currency := "usd";
       payment_method_types := ["card"] |} in
  exists (r : Response),
    purchase env req w = (Ok r, w, [ProductFindOne id; StripeCreate params])
    /\ (forall intent, stripe_create env params = Some intent ->
        r = send (BClientSecret (client_secret intent)))
    /\ productCollection w !! id = Some p.
Proof.
  intros Hid Hsome Hq Hge params.
  pose proof (purchase_present env req w id Hid p quantity Hsome Hq) as Hrun.
  rewrite (num_geb_not_ltb _ _ Hge) in Hrun.
  change (intent_params p quantity) with params in Hrun.
  eexists. split; [exact Hrun|]. split; [|exact Hsome].
  intros intent Hcreate. rewrite Hcreate. reflexivity.
Qed.

Lemma purchase_requests_intent_witness :
  purchase Demo.env Samples.buy_two Demo.world =
    (Ok (send (BClientSecret "pi_open_secret")), Demo.world,
     [ProductFindOne 1%N;
      StripeCreate
        {| amount := num_mul (num_mul (num_of_Z 10) (num_of_Z 2)) hundred;
           currency := "usd";
           payment_method_types := ["card"] |}]).
Proof.
  destruct (purchase_requests_intent Demo.env Samples.buy_two Demo.world 1%N
              Demo.mug (num_of_Z 2) eq_refl eq_refl eq_refl eq_refl)
    as (r & Hrun & Hsecret & _).
  rewrite Hrun. rewrite (Hsecret Demo.open_intent eq_refl). reflexivity.
Defined.

(** C4: for an existing product and a quantity larger than its stock,
    [purchase] answers 400 "Not enough stock available", makes no call to
    the payment gateway and leaves the store as it was. *)
Theorem purchase_insufficient_stock
    (env : Env) (req : Request) (w : World) (id : ObjectId) (p : Product)
    (quantity : number) :
  parse_ObjectId (param req) = Some id ->
  productCollection w !! id = Some p ->
  ToNumber env (field (body req) "quantity") = Some quantity ->
  num_gtb quantity (stock p) = true ->
  exists (t : list Event),
    purchase env req w =
      (Ok (status_json 400 (BMessage "Not enough stock available")), w, t)
    /\ List.filter is_gateway_call t = [].
Proof.
  intros Hid Hsome Hq Hgt.
  pose proof (purchase_present env req w id Hid p quantity Hsome Hq) as Hrun.
  unfold num_gtb in Hgt. rewrite Hgt in Hrun.
  eexists. split; [exact Hrun|reflexivity].
Qed.

Lemma purchase_insufficient_stock_witness :
  exists (t : list Event),
    purchase Demo.env Samples.buy_six Demo.world =
      (Ok (status_json 400 (BMessage "Not enough stock available")),
       Demo.world, t)
    /\ List.filter is_gateway_call t = [].
Proof.
  exact (purchase_insufficient_stock Demo.env Samples.buy_six Demo.world 1%N
           Demo.mug (num_of_Z 6) eq_refl eq_refl eq_refl eq_refl).
Defined.

(** C5: for an existing product, any quantity and an intent whose status is
    not "succeeded", [confirm_payment] answers 400 "Payment not successful"
    and writes nothing: the store, and so the product's stock and status,
    are as before the call. *)
Theorem confirm_payment_not_completed
    (env : Env) (req : Request) (w : World) (id : ObjectId)
    (p : Product) (intent : PaymentIntent) :
  parse_ObjectId (param req) = Some id ->
  productCollection w !! id = Some p ->
  stripe_retrieve env (field (body req) "paymentIntentId") = Some intent ->
  pi_status intent <> "succeeded" ->
  exists (t : list Event),
    confirm_payment env req w =
      (Ok (status_json 400 (BMessage "Payment not successful")), w, t)
    /\ List.filter is_store_write t = []
    /\ productCollection w !! id = Some p.
Proof.
  intros Hid Hsome Hget Hst.
  eexists. split.
  - exact (confirm_payment_not_succeeded env req w id Hid p intent Hsome Hget Hst).
  - split; [reflexivity|exact Hsome].
Qed.

Lemma confirm_payment_not_completed_witness :
  exists (t : list Event),
    confirm_payment Demo.env Samples.pay_open_intent Demo.world =
      (Ok (status_json 400 (BMessage "Payment not successful")), Demo.world, t)
    /\ List.filter is_store_write t = []
    /\ productCollection Demo.world !! 2%N = Some Demo.last_lamp.
Proof.
  apply (confirm_payment_not_completed Demo.env Samples.pay_open_intent
           Demo.world 2%N Demo.last_lamp Demo.open_intent
           eq_refl eq_refl eq_refl).
  discriminate.
Defined.

(** C6: in [confirm_payment] with a succeeded intent, when the [updateOne]
    of the stock and the status reports that it modified no document, the
    handler answers 400 "Failed to update product stock". *)
Theorem confirm_payment_update_conflict
    (env : Env) (req : Request) (w : World) (id : ObjectId)
    (p : Product) (intent : PaymentIntent) (quantity : number) :
  parse_ObjectId (param req) = Some id ->
  productCollection w !! id = Some p ->
  stripe_retrieve env (field (body req) "paymentIntentId") = Some intent ->
  pi_status intent = "succeeded" ->
  ToNumber env (field (body req) "quantity") = Some quantity ->
  let updatedStock := num_sub (stock p) quantity in
  let upd := SetStock updatedStock (VStr (status_label updatedStock)) in
  forall (result : UpdateResult) (w1 : World) (t1 : list Event),
    products_updateOne id upd w = (Ok result, w1, t1) ->
    modifiedCount result = 0%nat ->
    exists (t : list Event),
      confirm_payment env req w =
        (Ok (status_json 400 (BMessage "Failed to update product stock")), w1, t).
Proof.
  intros Hid Hsome Hget Hst Hq updatedStock upd result w1 t1 Hupd Hzero.
  pose proof (confirm_payment_succeeded env req w id Hid p intent quantity
                Hsome Hget Hst Hq) as Hrun.
  cbv zeta in Hrun.
  change (updatedStock_of p quantity) with updatedStock in Hrun.
  fold upd in Hrun.
  unfold products_updateOne in Hupd. rewrite Hsome in Hupd.
  destruct (same_doc p (apply_update upd p)).
  - injection Hupd as _ <- _. eexists. exact Hrun.
  - injection Hupd as <- _ _. discriminate Hzero.
Qed.

Lemma confirm_payment_update_conflict_witness :
  exists (w1 : World) (t : list Event),
    confirm_payment Demo.env Samples.pay_no_lamp Demo.world =
      (Ok (status_json 400 (BMessage "Failed to update product stock")), w1, t).
Proof.
  eexists.
  apply (confirm_payment_update_conflict Demo.env Samples.pay_no_lamp
           Demo.world 2%N Demo.last_lamp Demo.paid_intent (num_of_Z 0)
           eq_refl eq_refl eq_refl eq_refl eq_refl
           {| matchedCount := 1; modifiedCount := 0 |} _ _ eq_refl eq_refl).
Defined.

(** C7: [get_product], [purchase] and [confirm_payment] answer 404 with
    [{message: "Product not found"}] when the id is well formed and no
    product has it, and go past that check when a product has it. *)
Theorem product_lookup_not_found
    (env : Env) (req : Request) (w : World) (id : ObjectId) :
  parse_ObjectId (param req) = Some id ->
  (productCollection w !! id = None ->
     get_product req w =
       (Ok (status_json 404 (BMessage "Product not found")), w, [ProductFindOne id])
     /\ purchase env req w =
       (Ok (status_json 404 (BMessage "Product not found")), w, [ProductFindOne id])
     /\ confirm_payment env req w =
       (Ok (status_json 404 (BMessage "Product not found")), w, [ProductFindOne id]))
  /\ (forall p, productCollection w !! id = Some p ->
        get_product req w =
          (Ok (send (BProduct (Some (id, p)))), w, [ProductFindOne id])
        /\ (forall r w' t, purchase env req w = (Ok r, w', t) -> code r <> 404%nat)
        /\ (forall r w' t, confirm_payment env req w = (Ok r, w', t) ->
              code r <> 404%nat)).
Proof.
  intros Hid. split.
  - intros Hnone. repeat split.
    + exact (get_product_absent req w id Hid Hnone).
    + exact (purchase_absent env req w id Hid Hnone).
    + exact (confirm_payment_absent env req w id Hid Hnone).
  - intros p Hsome. repeat split.
    + exact (get_product_present req w id Hid p Hsome).
    + intros r w' t Hrun.
      destruct (ToNumber env (field (body req) "quantity")) as [q|] eqn:Hq.
      * rewrite (purchase_present env req w id Hid p q Hsome Hq) in Hrun.
        destruct (num_ltb _ _); [|destruct (stripe_create _ _)];
          injection Hrun as <- _ _; simpl; lia.
      * rewrite (purchase_uncoercible env req w id Hid p Hsome Hq) in Hrun.
        injection Hrun as <- _ _; simpl; lia.
    + intros r w' t Hrun.
      destruct (stripe_retrieve env (field (body req) "paymentIntentId"))
        as [intent|] eqn:Hget.
      * destruct (String.eqb_spec (pi_status intent) "succeeded") as [Hst|Hst].
        -- destruct (ToNumber env (field (body req) "quantity")) as [q|] eqn:Hq.
           ++ rewrite (confirm_payment_succeeded env req w id Hid p intent q
                         Hsome Hget Hst Hq) in Hrun.
              cbv zeta in Hrun.
              destruct (same_doc _ _); injection Hrun as <- _ _; simpl; lia.
           ++ rewrite (confirm_payment_uncoercible env req w id Hid p intent
                         Hsome Hget Hst Hq) in Hrun.
              injection Hrun as <- _ _; simpl; lia.
        -- rewrite (confirm_payment_not_succeeded env req w id Hid p intent Hsome Hget Hst) in Hrun.
           injection Hrun as <- _ _; simpl; lia.
      * rewrite (confirm_payment_gateway_down env req w id Hid p Hsome Hget) in Hrun.
        injection Hrun as <- _ _; simpl; lia.
Qed.

Lemma product_lookup_not_found_witness :
  get_product Samples.absent_product Demo.world =
    (Ok (status_json 404 (BMessage "Product not found")), Demo.world,
     [ProductFindOne 255%N])
  /\ purchase Demo.env Samples.absent_product Demo.world =
    (Ok (status_json 404 (BMessage "Product not found")), Demo.world,
     [ProductFindOne 255%N])
  /\ confirm_payment Demo.env Samples.absent_product Demo.world =
    (Ok (status_json 404 (BMessage "Product not found")), Demo.world,
     [ProductFindOne 255%N]).
Proof.
  apply (product_lookup_not_found Demo.env Samples.absent_product
           Demo.world 255%N eq_refl).
  reflexivity.
Defined.

(** * Registration *)

(** C8, as the code has it: [post_user] with an e-mail that selects a
    stored user leaves the store as it was (no second insert, no change of
    the stored record) and answers
    [{status: "success", message: "Login success", token}] with a token
    signed during this call for the e-mail of the request; the answer
    carries no user record. *)
Theorem post_user_existing_email
    (env : Env) (req : Request) (w : World) (u : User) :
  find_by_email env (field (body req) "email") (userCollection w) = Some (Some u) ->
  exists (r : Response) (t : list Event),
    post_user env req w = (Ok r, w, t)
    /\ r = send (BAuth "success" "Login success"
                   (jwt_sign env (field (body req) "email") (now req)))
    /\ List.filter is_store_write t = []
    /\ body_user (payload r) = None.
Proof.
  intros Hfound.
  unfold post_user, bind, users_findOne_email. rewrite Hfound.
  eexists _, _. split; [reflexivity|]. repeat split.
Qed.

Lemma post_user_existing_email_witness :
  exists (t : list Event),
    post_user Demo.env Demo.register_again Demo.world =
      (Ok (send (BAuth "success" "Login success" "Aann@shop.test")),
       Demo.world, t).
Proof.
  destruct (post_user_existing_email Demo.env Demo.register_again Demo.world
              Demo.ann eq_refl) as (r & t & Hrun & Hr & _).
  exists t. rewrite Hrun, Hr. reflexivity.
Defined.

(** C8, as the claim words it, fails: the answer to a second registration
    with the e-mail of a stored user does not carry that user's record. *)
Lemma post_user_returns_no_record :
  find_by_email Demo.env (field (body Demo.register_again) "email")
    (userCollection Demo.world) = Some (Some Demo.ann)
  /\ ~ (exists (r : Response) (w' : World) (t : list Event),
          post_user Demo.env Demo.register_again Demo.world = (Ok r, w', t)
          /\ body_user (payload r) = Some Demo.ann).
Proof.
  split; [reflexivity|].
  intros (r & w' & t & Hrun & Hrec).
  vm_compute in Hrun. injection Hrun as <- _ _. discriminate Hrec.
Qed.

(** * Exceptions at the HTTP boundary *)

Lemma try_catch_ret_total {A : Type} (m : M A) (fallback : Exception -> A) (w : World) :
  exists (a : A) (w' : World) (t : list Event),
    try_catch m (fun e => ret (fallback e)) w = (Ok a, w', t).
Proof.
  unfold try_catch, ret. destruct (m w) as [[[a|e] w1] t1]; eauto.
Qed.

(** The product routes whose whole body is inside [try] answer whatever
    happens inside them. *)
Lemma product_routes_always_answer (env : Env) (req : Request) (w : World) :
  forall (route : Request -> M Response),
    In route [get_products; get_product; delete_product env; purchase env;
              confirm_payment env] ->
    exists (r : Response) (w' : World) (t : list Event),
      route req w = (Ok r, w', t).
Proof.
  intros route Hin. simpl in Hin.
  destruct Hin as [<-|[<-|[<-|[<-|[<-|[]]]]]].
  - apply (try_catch_ret_total _ (fun _ => _)).
  - apply (try_catch_ret_total _ (fun _ => _)).
  - unfold delete_product, guarded. destruct (verifyToken env req).
    + apply (try_catch_ret_total _ (fun _ => _)).
    + unfold ret. eauto.
  - apply (try_catch_ret_total _ (fun _ => _)).
  - apply (try_catch_ret_total _ (fun _ => _)).
Qed.

Lemma get_user_by_id_malformed (req : Request) (w : World) :
  parse_ObjectId (param req) = None ->
  get_user_by_id req w = (Throw BSONError, w, []).
Proof.
  intros Hbad. unfold get_user_by_id, bind, new_ObjectId. rewrite Hbad. reflexivity.
Qed.

(** C9, at the input where the code breaks it: [GET /user/get/:id] with a
    malformed id has no [try]/[catch] around [new ObjectId], so the
    exception leaves the handler and no response is produced, whereas
    [GET /products/:id] catches the same exception and answers 500. *)
Theorem get_user_by_id_exception_escapes (w : World) :
  get_user_by_id (Demo.request Demo.malformed_id ∅) w = (Throw BSONError, w, [])
  /\ get_product (Demo.request Demo.malformed_id ∅) w =
       (Ok (status_json 500 (BMessage "Failed to fetch product")), w, []).
Proof.
  split; reflexivity.
Qed.

(** * Product update *)

(** What an authorised [PATCH /products/:id] does once the object literal
    of lines 147-153 is built. *)
Lemma patch_product_run (env : Env) (req : Request) (w : World)
    (user : value) (u : ProductFields) (id : ObjectId) :
  verifyToken env req = Next user ->
  fields_of_body env (body req) = Some u ->
  parse_ObjectId (param req) = Some id ->
  patch_product env req w =
    match productCollection w !! id with
    | None => (Ok product_not_found, w, [ProductUpdateOne id (SetFields u)])
    | Some p =>
        (Ok (if same_doc p (apply_update (SetFields u) p)
             then product_not_found else send (BFields u)),
         set_products w (<[id := apply_update (SetFields u) p]> (productCollection w)),
         [ProductUpdateOne id (SetFields u)])
    end.
Proof.
  intros Hauth Hu Hid.
  unfold patch_product, guarded. rewrite Hauth.
  unfold patch_product_handler, bind, convert. rewrite Hu. simpl.
  unfold try_catch, bind, new_ObjectId, products_updateOne.
  rewrite Hid. simpl.
  destruct (productCollection w !! id) as [p|]; simpl; [|reflexivity].
  destruct (same_doc p _); reflexivity.
Qed.

(** When [parseFloat] or [parseInt] throws, it does so before the [try]. *)
Lemma patch_product_throws (env : Env) (req : Request) (w : World) (user : value) :
  verifyToken env req = Next user ->
  fields_of_body env (body req) = None ->
  patch_product env req w = (Throw TypeError, w, []).
Proof.
  intros Hauth Hu.
  unfold patch_product, guarded. rewrite Hauth.
  unfold patch_product_handler, bind, convert. rewrite Hu. reflexivity.
Qed.

Lemma fields_of_body_parsed (env : Env) (b : gmap string value)
    (newPrice newStock : number) :
  parseFloat env (field b "price") = Some newPrice ->
  parseInt env (field b "stock") = Some newStock ->
  fields_of_body env b =
    Some {| f_name := field b "name";
            f_description := field b "description";
            f_price := newPrice;
            f_imageURL := field b "imageURL";
            f_stock := newStock |}.
Proof.
  intros Hp Hs. unfold fields_of_body. rewrite Hp, Hs. reflexivity.
Qed.




(** * Further properties of the routes *)

(** ** Token check (lines 30-42) *)

Lemma split_space_no_space (s : string) :
  no_space s = true -> split_space s = [s].
Proof.
  induction s as [|c rest IH]; simpl; [reflexivity|].
  intros H. apply andb_true_iff in H as [Hc Hrest].
  apply negb_true_iff in Hc. rewrite Hc, (IH Hrest). reflexivity.
Qed.

Lemma split_space_scheme (scheme rest : string) :
  no_space scheme = true ->
  split_space (String.append scheme (String " " rest)) =
    scheme :: split_space rest.
Proof.
  induction scheme as [|c scheme IH]; simpl; [reflexivity|].
  intros H. apply andb_true_iff in H as [Hc Hrest].
  apply negb_true_iff in Hc. rewrite Hc, (IH Hrest). reflexivity.
Qed.

Lemma verifyToken_refusal (env : Env) (req : Request) (r : Response) :
  verifyToken env req = Reply r -> r = not_authorized.
Proof.
  unfold verifyToken.
  destruct (authorization req) as [header|]; [|intros [= <-]; reflexivity].
  destruct (split_space header !! 1%nat) as [token|]; [|intros [= <-]; reflexivity].
  destruct (jwt_verify env token (now req)) as [e|]; [|intros [= <-]; reflexivity].
  destruct (truthy e); [discriminate|intros [= <-]; reflexivity].
Qed.

(** X1: [verifyToken] lets a request through exactly when the header has a
    second space-separated piece that [jwt.verify] accepts with a truthy
    e-mail; every refusal is the same 401 "You are not authorized". *)
Theorem verifyToken_passes_iff (env : Env) (req : Request) :
  (forall email,
     verifyToken env req = Next email <->
     exists header token,
       authorization req = Some header
       /\ split_space header !! 1%nat = Some token
       /\ jwt_verify env token (now req) = Some email
       /\ truthy email = true)
  /\ (forall r, verifyToken env req = Reply r ->
        r = status_json 401 (BText "You are not authorized")).
Proof.
  unfold verifyToken. split.
  - intros email. split.
    + destruct (authorization req) as [header|] eqn:Ha; [|discriminate].
      destruct (split_space header !! 1%nat) as [token|] eqn:Hs; [|discriminate].
      destruct (jwt_verify env token (now req)) as [e|] eqn:Hv; [|discriminate].
      destruct (truthy e) eqn:Ht; [|discriminate].
      intros [= <-]. exists header, token. repeat split; assumption || reflexivity.
    + intros (header & token & -> & -> & -> & ->). reflexivity.
  - intros r. fold (verifyToken env req). apply verifyToken_refusal.
Qed.

(** X2: the word in front of the token is not looked at: a header
    [scheme token] passes for any scheme without a space as soon as
    [jwt.verify] accepts the token with a truthy e-mail. *)
Theorem verifyToken_ignores_scheme
    (env : Env) (req : Request) (scheme token : string) (email : value) :
  authorization req = Some (String.append scheme (String " " token)) ->
  no_space scheme = true ->
  no_space token = true ->
  jwt_verify env token (now req) = Some email ->
  truthy email = true ->
  verifyToken env req = Next email.
Proof.
  intros Hauth Hscheme Htoken Hverify Htruthy.
  unfold verifyToken. rewrite Hauth.
  rewrite (split_space_scheme _ _ Hscheme), (split_space_no_space _ Htoken).
  simpl. rewrite Hverify, Htruthy. reflexivity.
Qed.

Lemma verifyToken_ignores_scheme_witness :
  verifyToken Demo.env Samples.basic_scheme = Next (VStr "admin@shop.test").
Proof.
  exact (verifyToken_ignores_scheme Demo.env Samples.basic_scheme
           "Basic" "admin-token" (VStr "admin@shop.test")
           eq_refl eq_refl eq_refl eq_refl eq_refl).
Defined.

(** X3: a request that [verifyToken] refuses never reaches the handlers of
    [PATCH /products/:id] and [DELETE /products/:id]: both answer 401,
    the store is as before and no call to it is made. *)
Theorem guarded_routes_refuse_without_token
    (env : Env) (req : Request) (w : World) :
  (forall email, verifyToken env req <> Next email) ->
  patch_product env req w =
    (Ok (status_json 401 (BText "You are not authorized")), w, [])
  /\ delete_product env req w =
    (Ok (status_json 401 (BText "You are not authorized")), w, []).
Proof.
  intros Hrefused.
  unfold patch_product, delete_product, guarded.
  destruct (verifyToken env req) as [email|r] eqn:Hv.
  - exfalso. exact (Hrefused email eq_refl).
  - rewrite (verifyToken_refusal env req r Hv). split; reflexivity.
Qed.

Lemma guarded_routes_refuse_without_token_witness :
  patch_product Demo.env Samples.rename_mug Demo.world =
    (Ok (status_json 401 (BText "You are not authorized")), Demo.world, [])
  /\ delete_product Demo.env
       Samples.rename_mug Demo.world =
    (Ok (status_json 401 (BText "You are not authorized")), Demo.world, []).
Proof.
  apply (guarded_routes_refuse_without_token Demo.env
           Samples.rename_mug Demo.world).
  intros email. discriminate.
Defined.

(** ** Registration and user look-up (lines 71-99) *)




Lemma emails_distinct_snoc (l : list User) (x : User) :
  emails_distinct l = true ->
  (forall u, In u l -> email_matches (email_of u) x = false) ->
  emails_distinct (l ++ [x]) = true.
Proof.
  induction l as [|u l IH]; simpl; [reflexivity|].
  intros Hd Hx. apply andb_true_iff in Hd as [Hu Hl].
  rewrite forallb_app, Hu. simpl.
  rewrite (Hx u (or_introl eq_refl)). simpl.
  apply IH; [exact Hl|]. intros v Hv. apply Hx. right. exact Hv.
Qed.

Lemma find_by_email_plain (env : Env) (e : value) (users : list User) :
  operator_doc e = false ->
  find_by_email env e users = Some (List.find (email_matches e) users).
Proof.
  intros Hplain. unfold find_by_email.
  destruct e; try reflexivity. simpl in Hplain. rewrite Hplain. reflexivity.
Qed.

Lemma scalar_not_operator (e : value) : scalar e = true -> operator_doc e = false.
Proof. destruct e; simpl; intros H; try reflexivity; discriminate H. Qed.



(** The four ways through [POST /user]. *)
Lemma post_user_known (env : Env) (req : Request) (w : World) (u : User) :
  find_by_email env (field (body req) "email") (userCollection w) = Some (Some u) ->
  post_user env req w =
    (Ok (send (BAuth "success" "Login success"
                 (jwt_sign env (field (body req) "email") (now req)))),
     w, [UserFindOneEmail (field (body req) "email")]).
Proof.
  intros Hsome. unfold post_user, bind, users_findOne_email.
  rewrite Hsome. reflexivity.
Qed.

Lemma post_user_new (env : Env) (req : Request) (w : World) (id : UserId) :
  find_by_email env (field (body req) "email") (userCollection w) = Some None ->
  insert_id env (body req) (userCollection w) = Some id ->
  post_user env req w =
    (Ok (send (BAuth "success" "Registration successful"
                 (jwt_sign env (field (body req) "email") (now req)))),
     set_users w (userCollection w ++ [mkUser id (body req)]),
     [UserFindOneEmail (field (body req) "email"); UserInsertOne (body req)]).
Proof.
  intros Hnone Hid. unfold post_user, bind, users_findOne_email, users_insertOne.
  rewrite Hnone. simpl. rewrite Hid. reflexivity.
Qed.

Lemma post_user_insert_refused (env : Env) (req : Request) (w : World) :
  find_by_email env (field (body req) "email") (userCollection w) = Some None ->
  insert_id env (body req) (userCollection w) = None ->
  post_user env req w =
    (Throw MongoServerError, w,
     [UserFindOneEmail (field (body req) "email"); UserInsertOne (body req)]).
Proof.
  intros Hnone Hid. unfold post_user, bind, users_findOne_email, users_insertOne.
  rewrite Hnone. simpl. rewrite Hid. reflexivity.
Qed.

Lemma post_user_filter_refused (env : Env) (req : Request) (w : World) :
  find_by_email env (field (body req) "email") (userCollection w) = None ->
  post_user env req w =
    (Throw MongoServerError, w, [UserFindOneEmail (field (body req) "email")]).
Proof.
  intros Hnone. unfold post_user, bind, users_findOne_email.
  rewrite Hnone. reflexivity.
Qed.



(** X5: among scalar e-mails [POST /user] keeps e-mails unique: when every
    stored e-mail and the one of the request are scalars (not arrays or
    objects) and no stored user is selected by the e-mail of another before
    the call, the same holds after it, whether the call answers or throws;
    and the call never touches the products. *)
Theorem post_user_keeps_emails_distinct
    (env : Env) (req : Request) (w w' : World)
    (r : Result Response) (t : list Event) :
  emails_scalar (userCollection w) = true ->
  scalar (field (body req) "email") = true ->
  emails_distinct (userCollection w) = true ->
  post_user env req w = (r, w', t) ->
  emails_scalar (userCollection w') = true
  /\ emails_distinct (userCollection w') = true
  /\ productCollection w' = productCollection w.
Proof.
  intros Hs He Hd Hrun.
  pose proof (find_by_email_plain env _ (userCollection w) (scalar_not_operator _ He))
    as Hfilter.
  destruct (List.find (email_matches (field (body req) "email")) (userCollection w))
    as [u|] eqn:Hfind.
  - rewrite (post_user_known env req w u Hfilter) in Hrun.
    injection Hrun as _ <- _. repeat split; assumption.
  - destruct (insert_id env (body req) (userCollection w)) as [id|] eqn:Hid.
    + rewrite (post_user_new env req w id Hfilter Hid) in Hrun.
      injection Hrun as _ <- _. simpl. repeat split.
      * unfold emails_scalar. rewrite forallb_app. fold (emails_scalar (userCollection w)).
        rewrite Hs. simpl. unfold email_of. simpl. rewrite He. reflexivity.
      * apply emails_distinct_snoc; [exact Hd|].
        intros u Hu. pose proof (find_none _ _ Hfind u Hu) as Hno.
        unfold email_matches in *. unfold email_of at 2 3. simpl.
        apply orb_false_iff in Hno as [Hno _].
        rewrite (value_equal_sym_scalar (bson (field (body req) "email"))) in Hno
          by (rewrite bson_scalar; exact He).
        rewrite Hno. simpl.
        destruct (field (body req) "email"); try reflexivity; discriminate He.
    + rewrite (post_user_insert_refused env req w Hfilter Hid) in Hrun.
      injection Hrun as _ <- _. repeat split; assumption.
Qed.

Lemma post_user_keeps_emails_distinct_witness :
  emails_distinct
    (userCollection (post_user Demo.env Samples.register_bob Demo.world).1.2)
  = true.
Proof.
  destruct (post_user Demo.env Samples.register_bob Demo.world)
    as [[r w'] t] eqn:Hrun.
  exact (proj1 (proj2 (post_user_keeps_emails_distinct Demo.env Samples.register_bob
                  Demo.world w' r t ltac:(vm_compute; reflexivity)
                  ltac:(vm_compute; reflexivity)
                  ltac:(vm_compute; reflexivity) Hrun))).
Defined.



(** ** Creating, listing and deleting products (lines 105-128, 173-184) *)


(** When [parseFloat] or [parseInt] throws, [POST /products] throws before
    its [try]. *)
Lemma post_products_throws (env : Env) (req : Request) (w : World) :
  fields_of_body env (body req) = None ->
  post_products env req w = (Throw TypeError, w, []).
Proof.
  intros Hu. unfold post_products, bind, convert. rewrite Hu. reflexivity.
Qed.


(** X8: [GET /products] answers with exactly the stored products, each once,
    and leaves the store as it was. *)
Theorem get_products_lists_the_store (req : Request) (w : World) :
  exists (l : list (ObjectId * Product)),
    get_products req w = (Ok (send (BProducts l)), w, [ProductFind])
    /\ NoDup l
    /\ (forall id p, (id, p) ∈ l <-> productCollection w !! id = Some p).
Proof.
  exists (map_to_list (productCollection w)). split; [reflexivity|]. split.
  - apply NoDup_map_to_list.
  - intros id p. apply elem_of_map_to_list.
Qed.

Lemma delete_product_run (env : Env) (req : Request) (w : World)
    (id : ObjectId) (email : value) :
  verifyToken env req = Next email ->
  parse_ObjectId (param req) = Some id ->
  delete_product env req w =
    match productCollection w !! id with
    | Some _ =>
        (Ok (send (BMessage "Product deleted")),
         set_products w (delete id (productCollection w)),
         [ProductDeleteOne id])
    | None => (Ok product_not_found, w, [ProductDeleteOne id])
    end.
Proof.
  intros Hauth Hid. unfold delete_product, guarded. rewrite Hauth.
  unfold delete_product_handler, try_catch, bind, new_ObjectId, products_deleteOne.
  rewrite Hid. simpl. destruct (productCollection w !! id); reflexivity.
Qed.

(** X9: an authorised [DELETE /products/:id] on an existing product answers
    "Product deleted" and removes that product only; afterwards
    [GET /products/:id] on the same id answers 404, and so does a second
    [DELETE], which changes nothing. *)
Theorem delete_product_removes_it
    (env : Env) (req : Request) (w : World) (id : ObjectId) (p : Product)
    (email : value) :
  verifyToken env req = Next email ->
  parse_ObjectId (param req) = Some id ->
  productCollection w !! id = Some p ->
  exists (w' : World),
    delete_product env req w =
      (Ok (send (BMessage "Product deleted")), w', [ProductDeleteOne id])
    /\ productCollection w' !! id = None
    /\ (forall j, j <> id -> productCollection w' !! j = productCollection w !! j)
    /\ userCollection w' = userCollection w
    /\ get_product req w' =
         (Ok (status_json 404 (BMessage "Product not found")), w',
          [ProductFindOne id])
    /\ delete_product env req w' =
         (Ok (status_json 404 (BMessage "Product not found")), w',
          [ProductDeleteOne id]).
Proof.
  intros Hauth Hid Hsome.
  exists (set_products w (delete id (productCollection w))).
  assert (Hgone : delete id (productCollection w) !! id = None)
    by apply lookup_delete_eq.
  split.
  { rewrite (delete_product_run env req w id email Hauth Hid), Hsome. reflexivity. }
  split; [exact Hgone|]. split; [|split; [reflexivity|split]].
  - intros j Hj. simpl. apply lookup_delete_ne. congruence.
  - apply (get_product_absent req _ id Hid). exact Hgone.
  - rewrite (delete_product_run env req _ id email Hauth Hid). simpl.
    rewrite Hgone. reflexivity.
Qed.

Lemma delete_product_removes_it_witness :
  exists (w' : World),
    delete_product Demo.env Samples.admin_delete_mug Demo.world =
      (Ok (send (BMessage "Product deleted")), w', [ProductDeleteOne 1%N])
    /\ productCollection w' !! 1%N = None
    /\ productCollection w' !! 2%N = Some Demo.last_lamp.
Proof.
  destruct (delete_product_removes_it Demo.env
              Samples.admin_delete_mug Demo.world 1%N Demo.mug
              (VStr "admin@shop.test") eq_refl eq_refl eq_refl)
    as (w' & Hrun & Hgone & Hframe & _).
  exists w'. split; [exact Hrun|]. split; [exact Hgone|].
  etransitivity; [exact (Hframe 2%N ltac:(discriminate))|reflexivity].
Defined.

(** X10: an authorised [DELETE /products/:id] with a well-formed id that no
    product has answers 404 and leaves the whole store as it was. *)
Theorem delete_product_absent
    (env : Env) (req : Request) (w : World) (id : ObjectId) (email : value) :
  verifyToken env req = Next email ->
  parse_ObjectId (param req) = Some id ->
  productCollection w !! id = None ->
  delete_product env req w =
    (Ok (status_json 404 (BMessage "Product not found")), w,
     [ProductDeleteOne id]).
Proof.
  intros Hauth Hid Hnone.
  rewrite (delete_product_run env req w id email Hauth Hid), Hnone. reflexivity.
Qed.

Lemma delete_product_absent_witness :
  delete_product Demo.env Samples.admin_absent Demo.world =
    (Ok (status_json 404 (BMessage "Product not found")), Demo.world,
     [ProductDeleteOne 255%N]).
Proof.
  exact (delete_product_absent Demo.env Samples.admin_absent
           Demo.world 255%N (VStr "admin@shop.test") eq_refl eq_refl eq_refl).
Defined.

(** ** Malformed ids and gateway failures *)

(** X11: with an id that [new ObjectId] refuses, no route reaches the store
    or the gateway; each product handler answers from its own [catch]:
    500 for [GET], [DELETE], purchase and confirm-payment (the last with an
    [{error}] body), 400 for [PATCH] when the object literal in front of
    its [try] can be built, and the [TypeError] of that literal otherwise. *)
Theorem malformed_id_never_reaches_store
    (env : Env) (req : Request) (w : World) :
  parse_ObjectId (param req) = None ->
  get_product req w =
    (Ok (status_json 500 (BMessage "Failed to fetch product")), w, [])
  /\ patch_product_handler env req w =
    match fields_of_body env (body req) with
    | Some _ => (Ok (status_json 400 (BMessage "Failed to update product")), w, [])
    | None => (Throw TypeError, w, [])
    end
  /\ delete_product_handler req w =
    (Ok (status_json 500 (BMessage "Failed to delete product")), w, [])
  /\ purchase env req w =
    (Ok (status_json 500 (BMessage "Failed to create payment intent")), w, [])
  /\ confirm_payment env req w =
    (Ok (status_json 500 (BError "Failed to confirm payment")), w, []).
Proof.
  intros Hbad.
  split; [exact (get_product_malformed req w Hbad)|].
  split; [|split].
  - unfold patch_product_handler, bind, convert.
    destruct (fields_of_body env (body req)) as [u|]; [|reflexivity].
    simpl. unfold try_catch, bind, new_ObjectId.
    rewrite Hbad. reflexivity.
  - unfold delete_product_handler, try_catch, bind, new_ObjectId.
    rewrite Hbad. reflexivity.
  - split; [exact (purchase_malformed env req w Hbad)|].
    exact (confirm_payment_malformed env req w Hbad).
Qed.

Lemma malformed_id_never_reaches_store_witness :
  patch_product_handler Demo.env Samples.malformed Demo.world =
    (Ok (status_json 400 (BMessage "Failed to update product")), Demo.world, [])
  /\ purchase Demo.env Samples.malformed Demo.world =
    (Ok (status_json 500 (BMessage "Failed to create payment intent")),
     Demo.world, [])
  /\ confirm_payment Demo.env Samples.malformed Demo.world =
    (Ok (status_json 500 (BError "Failed to confirm payment")), Demo.world, []).
Proof.
  destruct (malformed_id_never_reaches_store Demo.env Samples.malformed
              Demo.world eq_refl) as (_ & Hpatch & _ & Hbuy & Hpay).
  split; [|split]; assumption.
Defined.

(** X12: when the gateway throws, [purchase] answers 500
    [{message: "Failed to create payment intent"}] and [confirm_payment]
    answers 500 [{error: "Failed to confirm payment"}]; neither changes the
    store. *)
Theorem gateway_failure_answers_500
    (env : Env) (req : Request) (w : World) (id : ObjectId) (p : Product) :
  parse_ObjectId (param req) = Some id ->
  productCollection w !! id = Some p ->
  (forall quantity,
     ToNumber env (field (body req) "quantity") = Some quantity ->
     num_ltb (stock p) quantity = false ->
     stripe_create env (intent_params p quantity) = None ->
     exists t,
       purchase env req w =
         (Ok (status_json 500 (BMessage "Failed to create payment intent")), w, t))
  /\ (stripe_retrieve env (field (body req) "paymentIntentId") = None ->
      exists t,
        confirm_payment env req w =
          (Ok (status_json 500 (BError "Failed to confirm payment")), w, t)
        /\ List.filter is_store_write t = []).
Proof.
  intros Hid Hsome. split.
  - intros quantity Hq Hguard Hdown.
    pose proof (purchase_present env req w id Hid p quantity Hsome Hq) as Hrun.
    rewrite Hguard, Hdown in Hrun.
    eexists. exact Hrun.
  - intros Hdown. eexists. split.
    + exact (confirm_payment_gateway_down env req w id Hid p Hsome Hdown).
    + reflexivity.
Qed.

Lemma gateway_failure_answers_500_witness :
  (exists t,
     purchase Demo.env Samples.buy_nothing Demo.world =
       (Ok (status_json 500 (BMessage "Failed to create payment intent")),
        Demo.world, t))
  /\ (exists t,
        confirm_payment Demo.env Samples.pay_unknown_intent Demo.world =
          (Ok (status_json 500 (BError "Failed to confirm payment")),
           Demo.world, t)).
Proof.
  split.
  - exact (proj1 (gateway_failure_answers_500 Demo.env Samples.buy_nothing
                    Demo.world 1%N Demo.mug eq_refl eq_refl)
             (num_of_Z 0) eq_refl eq_refl eq_refl).
  - destruct (proj2 (gateway_failure_answers_500 Demo.env
                       Samples.pay_unknown_intent Demo.world 2%N Demo.last_lamp
                       eq_refl eq_refl) eq_refl) as (t & Hrun & _).
    exists t. exact Hrun.
Defined.

(** ** What the routes leave alone *)

Lemma purchase_reads_only (env : Env) (req : Request) (w : World) :
  exists (r : Response) (t : list Event),
    purchase env req w = (Ok r, w, t) /\ List.filter is_store_write t = [].
Proof.
  destruct (parse_ObjectId (param req)) as [id|] eqn:Hid.
  - destruct (productCollection w !! id) as [p|] eqn:Hlook.
    + destruct (ToNumber env (field (body req) "quantity")) as [q|] eqn:Hq.
      * rewrite (purchase_present env req w id Hid p q Hlook Hq).
        destruct (num_ltb _ _); eexists _, _; split; reflexivity.
      * rewrite (purchase_uncoercible env req w id Hid p Hlook Hq).
        eexists _, _; split; reflexivity.
    + rewrite (purchase_absent env req w id Hid Hlook).
      eexists _, _; split; reflexivity.
  - rewrite (purchase_malformed env req w Hid).
    eexists _, _; split; reflexivity.
Qed.

Lemma get_product_reads_only (req : Request) (w : World) :
  exists (r : Response) (t : list Event),
    get_product req w = (Ok r, w, t) /\ List.filter is_store_write t = [].
Proof.
  destruct (parse_ObjectId (param req)) as [id|] eqn:Hid.
  - destruct (productCollection w !! id) as [p|] eqn:Hlook.
    + rewrite (get_product_present req w id Hid p Hlook).
      eexists _, _; split; reflexivity.
    + rewrite (get_product_absent req w id Hid Hlook).
      eexists _, _; split; reflexivity.
  - rewrite (get_product_malformed req w Hid).
    eexists _, _; split; reflexivity.
Qed.

(** X13: [GET /products], [GET /products/:id], [POST /products/:id/purchase],
    [GET /user/:email], [GET /user/get/:id] and [GET /] never write: whatever
    the request and whatever they answer, the store after the call is the
    store before it and no insert, update or delete is sent. *)
Theorem reading_routes_never_write (env : Env) (req : Request) (w : World) :
  forall (route : Request -> M Response),
    In route [get_products; get_product; purchase env; get_user_by_email;
              get_user_by_id; root] ->
    exists (r : Result Response) (t : list Event),
      route req w = (r, w, t) /\ List.filter is_store_write t = [].
Proof.
  intros route Hin. simpl in Hin.
  destruct Hin as [<-|[<-|[<-|[<-|[<-|[<-|[]]]]]]].
  - eexists _, _; split; reflexivity.
  - destruct (get_product_reads_only req w) as (r & t & -> & Ht). eauto.
  - destruct (purchase_reads_only env req w) as (r & t & -> & Ht). eauto.
  - eexists _, _; split; reflexivity.
  - unfold get_user_by_id, bind, new_ObjectId, users_findOne_id.
    destruct (parse_ObjectId (param req)); eexists _, _; split; reflexivity.
  - eexists _, _; split; reflexivity.
Qed.

Lemma reading_routes_never_write_witness :
  exists (r : Result Response) (t : list Event),
    purchase Demo.env Samples.buy_nothing Demo.world = (r, Demo.world, t)
    /\ List.filter is_store_write t = [].
Proof.
  apply (reading_routes_never_write Demo.env Samples.buy_nothing Demo.world
           (purchase Demo.env)).
  simpl. right. right. left. reflexivity.
Defined.

(** [confirm_payment] either leaves the store alone or rewrites the stock
    and the status of the product that the URL names. *)
Lemma confirm_payment_world (env : Env) (req : Request) (w w' : World)
    (r : Result Response) (t : list Event) :
  confirm_payment env req w = (r, w', t) ->
  (forall params, ~ In (StripeCreate params) t)
  /\ (w' = w
      \/ exists id p s st,
           parse_ObjectId (param req) = Some id
           /\ productCollection w !! id = Some p
           /\ w' = set_products w
                     (<[id := apply_update (SetStock s st) p]>
                        (productCollection w))).
Proof.
  intros Hrun.
  destruct (parse_ObjectId (param req)) as [id|] eqn:Hid.
  2:{ rewrite (confirm_payment_malformed env req w Hid) in Hrun.
      injection Hrun as _ <- <-. split; [intros params []|left; reflexivity]. }
  destruct (productCollection w !! id) as [p|] eqn:Hlook.
  2:{ rewrite (confirm_payment_absent env req w id Hid Hlook) in Hrun.
      injection Hrun as _ <- <-. split; [|left; reflexivity].
      intros params [H|[]]; discriminate H. }
  destruct (stripe_retrieve env (field (body req) "paymentIntentId"))
    as [intent|] eqn:Hget.
  2:{ rewrite (confirm_payment_gateway_down env req w id Hid p Hlook Hget) in Hrun.
      injection Hrun as _ <- <-. split; [|left; reflexivity].
      intros params [H|[H|[]]]; discriminate H. }
  destruct (String.eqb_spec (pi_status intent) "succeeded") as [Hst|Hst].
  - destruct (ToNumber env (field (body req) "quantity")) as [q|] eqn:Hq.
    2:{ rewrite (confirm_payment_uncoercible env req w id Hid p intent
                   Hlook Hget Hst Hq) in Hrun.
        injection Hrun as _ <- <-. split; [|left; reflexivity].
        intros params [H|[H|[]]]; discriminate H. }
    rewrite (confirm_payment_succeeded env req w id Hid p intent q
               Hlook Hget Hst Hq) in Hrun.
    cbv zeta in Hrun.
    destruct (same_doc p _); injection Hrun as _ <- <-.
    + split; [intros params [H|[H|[H|[]]]]; discriminate H|].
      right.
      exists id, p, (updatedStock_of p q),
        (VStr (status_label (updatedStock_of p q))).
      repeat split; first [assumption|reflexivity].
    + split; [intros params [H|[H|[H|[H|[]]]]]; discriminate H|].
      right.
      exists id, p, (updatedStock_of p q),
        (VStr (status_label (updatedStock_of p q))).
      repeat split; first [assumption|reflexivity].
  - rewrite (confirm_payment_not_succeeded env req w id Hid p intent Hlook Hget Hst) in Hrun.
    injection Hrun as _ <- <-. split; [|left; reflexivity].
    intros params [H|[H|[]]]; discriminate H.
Qed.
(** X14: whatever the request and the outcome, [confirm_payment] never
    creates a payment intent, never touches the users, never adds or removes
    a product, leaves every product other than the one named in the URL as
    it was, and leaves the name, the description, the price and the image of
    that one as they were. *)
Theorem confirm_payment_frame
    (env : Env) (req : Request) (w w' : World)
    (r : Result Response) (t : list Event) :
  confirm_payment env req w = (r, w', t) ->
  (forall params, ~ In (StripeCreate params) t)
  /\ userCollection w' = userCollection w
  /\ (forall j, parse_ObjectId (param req) <> Some j ->
        productCollection w' !! j = productCollection w !! j)
  /\ (forall j, productCollection w' !! j = None <->
                productCollection w !! j = None)
  /\ (forall j p p',
        productCollection w !! j = Some p ->
        productCollection w' !! j = Some p' ->
        name p' = name p /\ description p' = description p
        /\ price p' = price p /\ imageURL p' = imageURL p).
Proof.
  intros Hrun.
  destruct (confirm_payment_world env req w w' r t Hrun) as [Hcreate Hw].
  split; [exact Hcreate|].
  destruct Hw as [->|(id & p0 & s & st & Hid & Hlook & ->)].
  - split; [reflexivity|]. split; [reflexivity|]. split; [reflexivity|].
    intros j p p' Hp Hp'. rewrite Hp in Hp'. injection Hp' as <-. auto.
  - simpl. split; [reflexivity|]. split; [|split].
    + intros j Hj. apply lookup_insert_ne. congruence.
    + intros j. destruct (decide (id = j)) as [<-|Hne].
      * rewrite lookup_insert_eq, Hlook. split; discriminate.
      * rewrite lookup_insert_ne by exact Hne. reflexivity.
    + intros j p p' Hp Hp'. destruct (decide (id = j)) as [<-|Hne].
      * rewrite lookup_insert_eq in Hp'. rewrite Hlook in Hp.
        injection Hp as <-. injection Hp' as <-. simpl. auto.
      * rewrite lookup_insert_ne in Hp' by exact Hne.
        rewrite Hp in Hp'. injection Hp' as <-. auto.
Qed.

Lemma confirm_payment_frame_witness :
  productCollection
    (confirm_payment Demo.env Samples.pay_one_lamp Demo.world).1.2 !! 1%N =
    Some Demo.mug
  /\ userCollection
       (confirm_payment Demo.env Samples.pay_one_lamp Demo.world).1.2 =
     [Demo.ann].
Proof.
  destruct (confirm_payment Demo.env Samples.pay_one_lamp Demo.world)
    as [[r w'] t] eqn:Hrun.
  destruct (confirm_payment_frame Demo.env Samples.pay_one_lamp Demo.world w'
              r t Hrun) as (_ & Husers & Hothers & _).
  split; [|exact Husers].
  etransitivity; [exact (Hothers 1%N ltac:(discriminate))|reflexivity].
Defined.

(** ** Replays and labels in the checkout *)

(** X15: a product whose stock a confirmation drives below zero is labelled
    "In Stock": only a stock of exactly 0 is labelled "Out of Stock". *)
Theorem negative_stock_is_labelled_in_stock
    (env : Env) (req : Request) (w : World) (id : ObjectId)
    (p : Product) (intent : PaymentIntent) (quantity : number) :
  parse_ObjectId (param req) = Some id ->
  productCollection w !! id = Some p ->
  stripe_retrieve env (field (body req) "paymentIntentId") = Some intent ->
  pi_status intent = "succeeded" ->
  ToNumber env (field (body req) "quantity") = Some quantity ->
  num_gtb quantity (stock p) = true ->
  exists (r : Response) (w' : World) (t : list Event) (p' : Product),
    confirm_payment env req w = (Ok r, w', t)
    /\ productCollection w' !! id = Some p'
    /\ num_ltb (stock p') zero = true
    /\ status p' = VStr "In Stock".
Proof.
  intros Hid Hsome Hget Hst Hq Hgt.
  pose proof (confirm_payment_succeeded env req w id Hid p intent quantity
                Hsome Hget Hst Hq) as Hrun.
  cbv zeta in Hrun.
  set (s := updatedStock_of p quantity) in *.
  assert (Hneg : num_ltb s zero = true)
    by (apply num_gtb_sub_negative; exact Hgt).
  assert (Hlabel : status_label s = "In Stock").
  { apply status_label_in. apply num_gtb_sub_not_zero. exact Hgt. }
  destruct (same_doc p _);
    (eexists _, _, _, _; split; [exact Hrun|]; split;
     [simpl; apply lookup_insert_eq|]; split;
     [exact Hneg|simpl; rewrite Hlabel; reflexivity]).
Qed.

Lemma negative_stock_is_labelled_in_stock_witness :
  exists (r : Response) (w' : World) (t : list Event) (p' : Product),
    confirm_payment Demo.env Samples.pay_three_lamps Demo.world = (Ok r, w', t)
    /\ productCollection w' !! 2%N = Some p'
    /\ num_ltb (stock p') zero = true
    /\ status p' = VStr "In Stock".
Proof.
  exact (negative_stock_is_labelled_in_stock Demo.env Samples.pay_three_lamps
           Demo.world 2%N Demo.last_lamp Demo.paid_intent (num_of_Z 3)
           eq_refl eq_refl eq_refl eq_refl eq_refl eq_refl).
Defined.

(** X16: nothing records that an intent was used: confirming twice with the
    same succeeded intent takes the quantity off the stock twice, each time
    with the subtraction of doubles. *)
Theorem confirm_payment_replay_decrements_again
    (env : Env) (req : Request) (w : World) (id : ObjectId)
    (p : Product) (intent : PaymentIntent) (quantity : number) :
  parse_ObjectId (param req) = Some id ->
  productCollection w !! id = Some p ->
  stripe_retrieve env (field (body req) "paymentIntentId") = Some intent ->
  pi_status intent = "succeeded" ->
  ToNumber env (field (body req) "quantity") = Some quantity ->
  exists (r1 r2 : Response) (w1 w2 : World) (t1 t2 : list Event) (p2 : Product),
    confirm_payment env req w = (Ok r1, w1, t1)
    /\ confirm_payment env req w1 = (Ok r2, w2, t2)
    /\ In (ProductUpdateOne id
             (SetStock (num_sub (stock p) quantity)
                (VStr (status_label (num_sub (stock p) quantity))))) t1
    /\ In (ProductUpdateOne id (SetStock (stock p2) (status p2))) t2
    /\ productCollection w2 !! id = Some p2
    /\ stock p2 = num_sub (num_sub (stock p) quantity) quantity.
Proof.
  intros Hid Hsome Hget Hst Hq.
  pose proof (confirm_payment_succeeded env req w id Hid p intent quantity
                Hsome Hget Hst Hq) as Hrun1.
  cbv zeta in Hrun1.
  set (s1 := updatedStock_of p quantity) in *.
  set (p1 := apply_update (SetStock s1 (VStr (status_label s1))) p) in *.
  set (w1 := set_products w (<[id := p1]> (productCollection w))) in *.
  assert (Hsome1 : productCollection w1 !! id = Some p1)
    by (simpl; apply lookup_insert_eq).
  pose proof (confirm_payment_succeeded env req w1 id Hid p1 intent quantity
                Hsome1 Hget Hst Hq) as Hrun2.
  cbv zeta in Hrun2.
  set (s2 := updatedStock_of p1 quantity) in *.
  set (p2 := apply_update (SetStock s2 (VStr (status_label s2))) p1) in *.
  destruct (same_doc p p1), (same_doc p1 p2);
    (eexists _, _, w1, _, _, _, p2; split; [exact Hrun1|]; split;
     [exact Hrun2|]; split; [simpl; auto|]; split; [simpl; auto|]; split;
     [simpl; apply lookup_insert_eq|reflexivity]).
Qed.

Lemma confirm_payment_replay_decrements_again_witness :
  exists (w2 : World) (p2 : Product),
    productCollection w2 !! 2%N = Some p2
    /\ stock p2 = num_sub (num_sub (num_of_Z 1) (num_of_Z 1)) (num_of_Z 1)
    /\ num_ltb (stock p2) zero = true.
Proof.
  destruct (confirm_payment_replay_decrements_again Demo.env
              Samples.pay_one_lamp Demo.world 2%N Demo.last_lamp
              Demo.paid_intent (num_of_Z 1)
              eq_refl eq_refl eq_refl eq_refl eq_refl)
    as (r1 & r2 & w1 & w2 & t1 & t2 & p2 & _ & _ & _ & _ & Hp2 & Hstock).
  exists w2, p2. split; [exact Hp2|]. split; [exact Hstock|].
  rewrite Hstock. reflexivity.
Defined.

(** X17: [purchase] does not ask for a quantity: when the body has none,
    the stock check lets the request through whatever the stock is, and the
    gateway is asked for an intent whose amount is [NaN]. *)
Theorem purchase_without_quantity
    (env : Env) (req : Request) (w : World) (id : ObjectId) (p : Product) :
  parse_ObjectId (param req) = Some id ->
  productCollection w !! id = Some p ->
  body req !! "quantity" = None ->
  let params :=
    {| amount := NaN; currency := "usd"; payment_method_types := ["card"] |} in
  purchase env req w =
    (Ok match stripe_create env params with
        | Some intent => send (BClientSecret (client_secret intent))
        | None => status_json 500 (BMessage "Failed to create payment intent")
        end,
     w, [ProductFindOne id; StripeCreate params]).
Proof.
  intros Hid Hsome Hnone params.
  assert (Hq : ToNumber env (field (body req) "quantity") = Some NaN)
    by (unfold field; rewrite Hnone; reflexivity).
  pose proof (purchase_present env req w id Hid p NaN Hsome Hq) as Hrun.
  unfold intent_params in Hrun.
  assert (Hlt : num_ltb (stock p) NaN = false) by apply Binary64.float_ltb_nan.
  assert (Hmul : num_mul (num_mul (price p) NaN) hundred = NaN).
  { unfold num_mul, NaN. rewrite Binary64.float_mul_nan.
    apply Binary64.float_nan_mul. }
  rewrite Hlt, Hmul in Hrun. exact Hrun.
Qed.

Lemma purchase_without_quantity_witness :
  purchase Demo.env Samples.buy_without_quantity Demo.world =
    (Ok (status_json 500 (BMessage "Failed to create payment intent")),
     Demo.world,
     [ProductFindOne 1%N;
      StripeCreate {| amount := NaN; currency := "usd";
                      payment_method_types := ["card"] |}]).
Proof.
  exact (purchase_without_quantity Demo.env Samples.buy_without_quantity
           Demo.world 1%N Demo.mug eq_refl eq_refl eq_refl).
Defined.

(** X18: [confirm_payment] does not ask for a quantity either: with a
    succeeded intent and no quantity in the body, the stock that is
    persisted is [NaN] and the label is "In Stock". *)
Theorem confirm_payment_without_quantity
    (env : Env) (req : Request) (w : World) (id : ObjectId)
    (p : Product) (intent : PaymentIntent) :
  parse_ObjectId (param req) = Some id ->
  productCollection w !! id = Some p ->
  stripe_retrieve env (field (body req) "paymentIntentId") = Some intent ->
  pi_status intent = "succeeded" ->
  body req !! "quantity" = None ->
  exists (r : Response) (w' : World) (t : list Event) (p' : Product),
    confirm_payment env req w = (Ok r, w', t)
    /\ productCollection w' !! id = Some p'
    /\ stock p' = NaN
    /\ status p' = VStr "In Stock".
Proof.
  intros Hid Hsome Hget Hst Hnone.
  assert (Hq : ToNumber env (field (body req) "quantity") = Some NaN)
    by (unfold field; rewrite Hnone; reflexivity).
  pose proof (confirm_payment_succeeded env req w id Hid p intent NaN
                Hsome Hget Hst Hq) as Hrun.
  cbv zeta in Hrun.
  assert (Hnan : updatedStock_of p NaN = NaN)
    by apply Binary64.float_sub_nan.
  rewrite Hnan in Hrun.
  destruct (same_doc p _);
    (eexists _, _, _, _; split; [exact Hrun|]; split;
     [simpl; apply lookup_insert_eq|]; split; reflexivity).
Qed.

Lemma confirm_payment_without_quantity_witness :
  exists (r : Response) (w' : World) (t : list Event) (p' : Product),
    confirm_payment Demo.env Samples.pay_without_quantity Demo.world =
      (Ok r, w', t)
    /\ productCollection w' !! 2%N = Some p'
    /\ stock p' = NaN
    /\ status p' = VStr "In Stock".
Proof.
  exact (confirm_payment_without_quantity Demo.env Samples.pay_without_quantity
           Demo.world 2%N Demo.last_lamp Demo.paid_intent
           eq_refl eq_refl eq_refl eq_refl eq_refl).
Defined.

(** ** Answers of [PATCH /products/:id] (lines 145-170) *)

(** X19: an authorised [PATCH /products/:id] whose five values are the ones
    already stored answers 404 "Product not found" although the product
    exists and stays: the handler takes "nothing modified" for "not
    found". *)
Theorem patch_product_same_values_answers_404
    (env : Env) (req : Request) (w : World) (id : ObjectId) (p : Product)
    (email : value) (newPrice newStock : number) :
  verifyToken env req = Next email ->
  parse_ObjectId (param req) = Some id ->
  productCollection w !! id = Some p ->
  parseFloat env (field (body req) "price") = Some newPrice ->
  parseInt env (field (body req) "stock") = Some newStock ->
  value_same (name p) (bson (field (body req) "name")) = true ->
  value_same (description p) (bson (field (body req) "description")) = true ->
  num_same (price p) newPrice = true ->
  value_same (imageURL p) (bson (field (body req) "imageURL")) = true ->
  num_same (stock p) newStock = true ->
  exists (w' : World) (t : list Event) (p' : Product),
    patch_product env req w =
      (Ok (status_json 404 (BMessage "Product not found")), w', t)
    /\ productCollection w' !! id = Some p'
    /\ same_doc p p' = true.
Proof.
  intros Hauth Hid Hsome Hprice Hstock Hn Hd Hp Hi Hs.
  pose proof (patch_product_run env req w email _ id Hauth
                (fields_of_body_parsed env _ newPrice newStock Hprice Hstock) Hid)
    as Hrun.
  rewrite Hsome in Hrun.
  match type of Hrun with
  | context [same_doc p ?q] =>
      assert (Hsame : same_doc p q = true)
        by (unfold same_doc; simpl; rewrite Hn, Hd, Hp, Hi, Hs, value_same_refl;
            reflexivity)
  end.
  rewrite Hsame in Hrun.
  eexists _, _, _. split; [exact Hrun|]. split; [|exact Hsame].
  simpl. apply lookup_insert_eq.
Qed.

Lemma patch_product_same_values_answers_404_witness :
  exists (w' : World) (t : list Event) (p' : Product),
    patch_product Demo.env Samples.admin_same_mug Demo.world =
      (Ok (status_json 404 (BMessage "Product not found")), w', t)
    /\ productCollection w' !! 1%N = Some p'
    /\ same_doc Demo.mug p' = true.
Proof.
  exact (patch_product_same_values_answers_404 Demo.env Samples.admin_same_mug
           Demo.world 1%N Demo.mug (VStr "admin@shop.test") 10%float 5%float
           eq_refl eq_refl eq_refl
           ltac:(vm_compute; reflexivity) ltac:(vm_compute; reflexivity)
           eq_refl eq_refl eq_refl eq_refl eq_refl).
Defined.





(** ** Confirming what the stock covers *)

(** X22: when the stock is finite and the quantity is at most the stock, a
    confirmation with a succeeded intent leaves a stock that is not
    negative, and labels the product "Out of Stock" exactly when the
    quantity equals the stock. *)
Theorem confirm_payment_within_stock
    (env : Env) (req : Request) (w : World) (id : ObjectId)
    (p : Product) (intent : PaymentIntent) (quantity : number) :
  parse_ObjectId (param req) = Some id ->
  productCollection w !! id = Some p ->
  stripe_retrieve env (field (body req) "paymentIntentId") = Some intent ->
  pi_status intent = "succeeded" ->
  ToNumber env (field (body req) "quantity") = Some quantity ->
  is_finite (stock p) = true ->
  num_geb (stock p) quantity = true ->
  exists (r : Response) (w' : World) (t : list Event) (p' : Product),
    confirm_payment env req w = (Ok r, w', t)
    /\ productCollection w' !! id = Some p'
    /\ num_leb zero (stock p') = true
    /\ (status p' = VStr "Out of Stock" <->
        num_strict_eq quantity (stock p) = true).
Proof.
  intros Hid Hsome Hget Hst Hq Hfin Hge.
  pose proof (confirm_payment_succeeded env req w id Hid p intent quantity
                Hsome Hget Hst Hq) as Hrun.
  cbv zeta in Hrun.
  destruct (num_sub_covered _ _ Hfin Hge) as [Hpos Hzero].
  fold (updatedStock_of p quantity) in Hpos, Hzero.
  set (s := updatedStock_of p quantity) in *.
  assert (Hlabel : VStr (status_label s) = VStr "Out of Stock" <->
            num_strict_eq quantity (stock p) = true).
  { rewrite <- Hzero, <- status_label_out.
    split; [intros [= ->]|intros ->]; reflexivity. }
  destruct (same_doc p _);
    (eexists _, _, _, _; split; [exact Hrun|]; split;
     [simpl; apply lookup_insert_eq|]; split; [exact Hpos|exact Hlabel]).
Qed.

Lemma confirm_payment_within_stock_witness :
  exists (r : Response) (w' : World) (t : list Event) (p' : Product),
    confirm_payment Demo.env Samples.pay_one_lamp Demo.world = (Ok r, w', t)
    /\ productCollection w' !! 2%N = Some p'
    /\ num_leb zero (stock p') = true
    /\ status p' = VStr "Out of Stock".
Proof.
  destruct (confirm_payment_within_stock Demo.env Samples.pay_one_lamp
              Demo.world 2%N Demo.last_lamp Demo.paid_intent (num_of_Z 1)
              eq_refl eq_refl eq_refl eq_refl eq_refl eq_refl eq_refl)
    as (r & w' & t & p' & Hrun & Hp' & Hpos & Hout).
  exists r, w', t, p'. split; [exact Hrun|]. split; [exact Hp'|].
  split; [exact Hpos|]. apply Hout. reflexivity.
Defined.

(** ** Registration without an e-mail, and with an [_id] *)



(** ** Status codes of the product routes *)

Lemma confirm_payment_codes (env : Env) (req : Request) (w : World) :
  exists (r : Response) (w' : World) (t : list Event),
    confirm_payment env req w = (Ok r, w', t)
    /\ In (code r) [200; 400; 404; 500]%nat.
Proof.
  destruct (parse_ObjectId (param req)) as [id|] eqn:Hid.
  2:{ rewrite (confirm_payment_malformed env req w Hid).
      eexists _, _, _. split; [reflexivity|simpl; auto]. }
  destruct (productCollection w !! id) as [p|] eqn:Hlook.
  2:{ rewrite (confirm_payment_absent env req w id Hid Hlook).
      eexists _, _, _. split; [reflexivity|simpl; auto]. }
  destruct (stripe_retrieve env (field (body req) "paymentIntentId"))
    as [intent|] eqn:Hget.
  2:{ rewrite (confirm_payment_gateway_down env req w id Hid p Hlook Hget).
      eexists _, _, _. split; [reflexivity|simpl; auto]. }
  destruct (String.eqb_spec (pi_status intent) "succeeded") as [Hst|Hst].
  - destruct (ToNumber env (field (body req) "quantity")) as [q|] eqn:Hq.
    + rewrite (confirm_payment_succeeded env req w id Hid p intent q
                 Hlook Hget Hst Hq).
      cbv zeta.
      destruct (same_doc p _); eexists _, _, _; (split; [reflexivity|simpl; auto]).
    + rewrite (confirm_payment_uncoercible env req w id Hid p intent
                 Hlook Hget Hst Hq).
      eexists _, _, _. split; [reflexivity|simpl; auto].
  - rewrite (confirm_payment_not_succeeded env req w id Hid p intent Hlook Hget Hst).
    eexists _, _, _. split; [reflexivity|simpl; auto].
Qed.

Lemma purchase_codes (env : Env) (req : Request) (w : World) :
  exists (r : Response) (w' : World) (t : list Event),
    purchase env req w = (Ok r, w', t)
    /\ In (code r) [200; 400; 404; 500]%nat.
Proof.
  destruct (parse_ObjectId (param req)) as [id|] eqn:Hid.
  2:{ rewrite (purchase_malformed env req w Hid).
      eexists _, _, _. split; [reflexivity|simpl; auto]. }
  destruct (productCollection w !! id) as [p|] eqn:Hlook.
  2:{ rewrite (purchase_absent env req w id Hid Hlook).
      eexists _, _, _. split; [reflexivity|simpl; auto]. }
  destruct (ToNumber env (field (body req) "quantity")) as [q|] eqn:Hq.
  - rewrite (purchase_present env req w id Hid p q Hlook Hq).
    destruct (num_ltb _ _); [|destruct (stripe_create _ _)];
      eexists _, _, _; (split; [reflexivity|simpl; auto]).
  - rewrite (purchase_uncoercible env req w id Hid p Hlook Hq).
    eexists _, _, _. split; [reflexivity|simpl; auto].
Qed.

Lemma post_products_codes (env : Env) (req : Request) (w : World)
    (u : ProductFields) :
  fields_of_body env (body req) = Some u ->
  exists (r : Response) (w' : World) (t : list Event),
    post_products env req w = (Ok r, w', t) /\ In (code r) [201; 400]%nat.
Proof.
  intros Hu. unfold post_products, bind, convert. rewrite Hu. simpl.
  eexists _, _, _. split; [reflexivity|simpl; auto].
Qed.

Lemma patch_product_codes (env : Env) (req : Request) (w : World) :
  (exists (r : Response) (w' : World) (t : list Event),
     patch_product env req w = (Ok r, w', t)
     /\ In (code r) [200; 400; 401; 404]%nat)
  \/ (fields_of_body env (body req) = None
      /\ patch_product env req w = (Throw TypeError, w, [])).
Proof.
  destruct (verifyToken env req) as [email|r0] eqn:Hauth.
  - destruct (fields_of_body env (body req)) as [u|] eqn:Hu.
    + left. destruct (parse_ObjectId (param req)) as [id|] eqn:Hid.
      * rewrite (patch_product_run env req w email u id Hauth Hu Hid).
        destruct (productCollection w !! id) as [p|];
          [destruct (same_doc p _)|];
          eexists _, _, _; (split; [reflexivity|simpl; auto]).
      * unfold patch_product, guarded. rewrite Hauth.
        unfold patch_product_handler, bind, convert. rewrite Hu. simpl.
        unfold try_catch, bind, new_ObjectId.
        rewrite Hid. eexists _, _, _. split; [reflexivity|simpl; auto].
    + right. split; [reflexivity|].
      exact (patch_product_throws env req w email Hauth Hu).
  - left. unfold patch_product, guarded. rewrite Hauth.
    rewrite (verifyToken_refusal env req r0 Hauth).
    eexists _, _, _. split; [reflexivity|simpl; auto].
Qed.

(** X24: the product routes whose whole body is inside [try] let no
    exception out, and each answers with one of its own status codes only:
    200 or 500 for [GET /products], 200, 404 or 500 for
    [GET /products/:id], 200, 401, 404 or 500 for [DELETE], and 200, 400,
    404 or 500 for purchase and confirm-payment.  [POST /products] and
    [PATCH] build their object literal in front of the [try]: they answer
    201 or 400, respectively 200, 400, 401 or 404, unless [parseFloat] or
    [parseInt] throws, and then the [TypeError] leaves the handler with the
    store untouched. *)
Theorem product_routes_status_codes (env : Env) (req : Request) (w : World) :
  (forall (route : Request -> M Response) (codes : list nat),
     In (route, codes)
       [(get_products, [200; 500]%nat);
        (get_product, [200; 404; 500]%nat);
        (delete_product env, [200; 401; 404; 500]%nat);
        (purchase env, [200; 400; 404; 500]%nat);
        (confirm_payment env, [200; 400; 404; 500]%nat)] ->
     exists (r : Response) (w' : World) (t : list Event),
       route req w = (Ok r, w', t) /\ In (code r) codes)
  /\ (forall (route : Request -> M Response) (codes : list nat),
        In (route, codes)
          [(post_products env, [201; 400]%nat);
           (patch_product env, [200; 400; 401; 404]%nat)] ->
        (exists (r : Response) (w' : World) (t : list Event),
           route req w = (Ok r, w', t) /\ In (code r) codes)
        \/ (fields_of_body env (body req) = None
            /\ route req w = (Throw TypeError, w, []))).
Proof.
  split.
  - intros route codes Hin. simpl in Hin.
    destruct Hin as [[= <- <-]|[[= <- <-]|[[= <- <-]|[[= <- <-]|[[= <- <-]|[]]]]]].
    + eexists _, _, _. split; [reflexivity|simpl; auto].
    + destruct (parse_ObjectId (param req)) as [id|] eqn:Hid.
      * destruct (productCollection w !! id) as [p|] eqn:Hlook.
        -- rewrite (get_product_present req w id Hid p Hlook).
           eexists _, _, _. split; [reflexivity|simpl; auto].
        -- rewrite (get_product_absent req w id Hid Hlook).
           eexists _, _, _. split; [reflexivity|simpl; auto].
      * rewrite (get_product_malformed req w Hid).
        eexists _, _, _. split; [reflexivity|simpl; auto].
    + destruct (verifyToken env req) as [email|r0] eqn:Hauth.
      * destruct (parse_ObjectId (param req)) as [id|] eqn:Hid.
        -- rewrite (delete_product_run env req w id email Hauth Hid).
           destruct (productCollection w !! id) as [p|];
             eexists _, _, _; (split; [reflexivity|simpl; auto]).
        -- unfold delete_product, guarded. rewrite Hauth.
           unfold delete_product_handler, try_catch, bind, new_ObjectId.
           rewrite Hid. eexists _, _, _. split; [reflexivity|simpl; auto].
      * unfold delete_product, guarded. rewrite Hauth.
        rewrite (verifyToken_refusal env req r0 Hauth).
        eexists _, _, _. split; [reflexivity|simpl; auto].
    + apply purchase_codes.
    + apply confirm_payment_codes.
  - intros route codes Hin. simpl in Hin.
    destruct Hin as [[= <- <-]|[[= <- <-]|[]]].
    + destruct (fields_of_body env (body req)) as [u|] eqn:Hu.
      * left. exact (post_products_codes env req w u Hu).
      * right. split; [reflexivity|]. exact (post_products_throws env req w Hu).
    + apply patch_product_codes.
Qed.

Lemma product_routes_status_codes_witness :
  exists (r : Response) (w' : World) (t : list Event),
    confirm_payment Demo.env Samples.pay_one_lamp Demo.world = (Ok r, w', t)
    /\ In (code r) [200; 400; 404; 500]%nat.
Proof.
  apply (proj1 (product_routes_status_codes Demo.env Samples.pay_one_lamp
                  Demo.world)
           (confirm_payment Demo.env) [200; 400; 404; 500]%nat).
  simpl. do 4 right. left. reflexivity.
Defined.

(** ** Exceptions in front of the [try] *)

Lemma parseFloat_unprintable (env : Env) (fields : list (string * value)) :
  has_key "toString" fields = true ->
  parseFloat env (VObj fields) = None.
Proof. intros Hkey. unfold parseFloat. simpl. rewrite Hkey. reflexivity. Qed.

(** X25: a price that is an object with a [toString] property of its own,
    which JSON cannot make callable, lets [parseFloat] throw a [TypeError]
    in front of the [try]: [POST /products] and an authorised
    [PATCH /products/:id] then answer nothing, and neither reaches the
    store. *)
Theorem unprintable_price_escapes
    (env : Env) (req : Request) (w : World) (fields : list (string * value)) :
  body req !! "price" = Some (VObj fields) ->
  has_key "toString" fields = true ->
  post_products env req w = (Throw TypeError, w, [])
  /\ (forall user, verifyToken env req = Next user ->
        patch_product env req w = (Throw TypeError, w, [])).
Proof.
  intros Hprice Hkey.
  assert (Hu : fields_of_body env (body req) = None).
  { unfold fields_of_body, field. rewrite Hprice.
    change (default VUndefined (Some (VObj fields))) with (VObj fields).
    rewrite (parseFloat_unprintable env fields Hkey). reflexivity. }
  split.
  - exact (post_products_throws env req w Hu).
  - intros user Hauth. exact (patch_product_throws env req w user Hauth Hu).
Qed.

Lemma unprintable_price_escapes_witness :
  post_products Demo.env Samples.add_unprintable Demo.world =
    (Throw TypeError, Demo.world, [])
  /\ patch_product Demo.env Samples.admin_patch_unprintable Demo.world =
    (Throw TypeError, Demo.world, []).
Proof.
  split.
  - exact (proj1 (unprintable_price_escapes Demo.env Samples.add_unprintable
                    Demo.world [("toString", VNull)]
                    ltac:(vm_compute; reflexivity) eq_refl)).
  - exact (proj2 (unprintable_price_escapes Demo.env
                    Samples.admin_patch_unprintable
                    Demo.world [("toString", VNull)]
                    ltac:(vm_compute; reflexivity) eq_refl)
             (VStr "admin@shop.test") eq_refl).
Defined.




